(** * Ghost content manager (src/ghost-content/index.js)

    A shallow embedding of the database-backed ghost content manager of
    botpress: the two tables it works on ([ghost_content] and
    [ghost_revisions]), the in-memory index [pendingRevisionsByFolder], and
    the operations [addRootFolder], [recordRevision], [readFile],
    [deleteFile], [directoryListing], [getPending] and
    [getPendingWithContent].

    Promises are modelled by the state reached once the promise chain of a
    call has run to its end, together with the way the promise handed to the
    caller settled. *)

From Stdlib Require Import Ascii String.
From stdpp Require Import base option list strings gmap sorting.

Local Open Scope string_scope.

(** ** JavaScript strings

    A string is a sequence of code units; the model covers the code units
    below 256, one [ascii] each. *)

Module JsString.

(** The code units [String.prototype.trim] strips: TAB, LF, VT, FF, CR,
    SPACE and NO-BREAK SPACE. *)
Definition is_white_space (a : ascii) : bool :=
  let n := nat_of_ascii a in
  ((9 <=? n)%nat && (n <=? 13)%nat) || (n =? 32)%nat || (n =? 160)%nat.

Definition is_empty (s : string) : bool :=
  match s with EmptyString => true | String _ _ => false end.

Fixpoint trimStart (s : string) : string :=
  match s with
  | EmptyString => EmptyString
  | String a s' => if is_white_space a then trimStart s' else s
  end.

Fixpoint trimEnd (s : string) : string :=
  match s with
  | EmptyString => EmptyString
  | String a s' =>
      let t := trimEnd s' in
      if is_white_space a && is_empty t then EmptyString else String a t
  end.

Definition trim (s : string) : string := trimEnd (trimStart s).

Definition is_newline (a : ascii) : bool := (nat_of_ascii a =? 10)%nat.

(** [s.split('\n')]: never the empty list, [''.split('\n')] is ['']. *)
Fixpoint split_lines (s : string) : list string :=
  match s with
  | EmptyString => [EmptyString]
  | String a s' =>
      if is_newline a then EmptyString :: split_lines s'
      else match split_lines s' with
           | l :: ls => String a l :: ls
           | [] => [String a EmptyString]
           end
  end.

(** [s.startsWith('#')] *)
Definition startsWith_hash (s : string) : bool :=
  match s with
  | String a _ => (nat_of_ascii a =? 35)%nat
  | EmptyString => false
  end.

(** Lower case of an ASCII letter. *)
Definition ascii_lower (a : ascii) : ascii :=
  let n := nat_of_ascii a in
  if (65 <=? n)%nat && (n <=? 90)%nat then ascii_of_nat (n + 32) else a.

(** SQL [LIKE] as SQLite, the database of a bot by default, evaluates it:
    two wildcards, [%] for any run of characters and [_] for any single
    one; every other character stands for itself, an ASCII letter for both
    its cases. *)
Fixpoint like (pat s : string) : bool :=
  match pat with
  | EmptyString => is_empty s
  | String p pat' =>
      if (nat_of_ascii p =? 37)%nat then
        (fix skip (s : string) : bool :=
           like pat' s ||
           match s with
           | EmptyString => false
           | String _ s' => skip s'
           end) s
      else
        match s with
        | EmptyString => false
        | String c s' =>
            ((nat_of_ascii p =? 95)%nat
             || Ascii.eqb (ascii_lower p) (ascii_lower c))
            && like pat' s'
        end
  end.

End JsString.

(** ** Rows of the two tables *)

(** A row of [ghost_content].  [c_content] is nullable; ids come from the
    table's auto-incremented key, so they are positive (and truthy). *)
Record content_row := mkContent {
  c_id : positive;
  c_folder : string;
  c_file : string;
  c_content : option string;
  c_deleted : bool
}.

(** A row of [ghost_revisions].  [r_content_id] is nullable. *)
Record revision_row := mkRevision {
  r_id : positive;
  r_content_id : option positive;
  r_revision : string;
  r_created_on : N;
  r_created_by : string
}.

(** What the select of [getPendingRevisions] returns for each joined row. *)
Record pending_row := mkPending {
  p_file : string;
  p_id : positive;
  p_revision : string;
  p_created_on : N;
  p_created_by : string
}.

(** The [{file, content, deleted}] rows of [getPendingWithContentForFolder]. *)
Record file_row := mkFile {
  f_file : string;
  f_content : option string;
  f_deleted : bool
}.

Record pending_with_content := mkPendingWithContent {
  files : list file_row;
  revisions : list string
}.

#[global] Instance content_row_eq_dec : EqDecision content_row.
Proof. solve_decision. Defined.
#[global] Instance revision_row_eq_dec : EqDecision revision_row.
Proof. solve_decision. Defined.
#[global] Instance pending_row_eq_dec : EqDecision pending_row.
Proof. solve_decision. Defined.

(** ** The database *)

Record database := mkDb {
  ghost_content : list content_row;
  ghost_revisions : list revision_row;
  next_content_id : positive;
  next_revision_id : positive
}.

(** ** Errors, logs and settled promises *)

Inductive error :=
| FsError (code : string)
    (** a rejected [fs.readFileAsync], with the [code] of its error *)
| DbError (msg : string)
    (** a failed database statement *)
| TypeErrorUndefined
    (** reading a property of [undefined] *)
| CantDeleteFile (file folder : string)
    (** [new Error(`Can't delete file: ...`)] of [deleteFile] *)
| TransactionRejectedWithNonError
    (** the error knex rejects the promise of [knex.transaction] with after
        [trx.rollback()] without an argument *).

Inductive log_entry :=
| DebugAdding (folder : string)
| DebugDeleting (folder : string) (n : nat)
| DebugPending (folder : string) (n : nat)
| DebugNoPending (folder : string)
| ErrorLogged (e : error).

(** How the promise returned to the caller settled. *)
Inductive outcome (A : Type) :=
| Fulfilled (v : A)
| Rejected (e : error).
Arguments Fulfilled {A} v.
Arguments Rejected {A} e.

(** The statements whose failure the model can inject. *)
Inductive db_step :=
| StSelect            (** the select before the transaction *)
| StTxSelect          (** the select of [upsert], in the transaction *)
| StTxWrite           (** the update or insert on [ghost_content] *)
| StTxInsertRevision  (** the insert into [ghost_revisions] *)
| StRefresh           (** the select of [updatePendingForFolder] *).

#[global] Instance db_step_eq_dec : EqDecision db_step.
Proof. solve_decision. Defined.

(** What the outside world contributes to one mutating call: the token
    [uuid.v4()] returns, the database clock behind the [created_on]
    default, and the statements that fail. *)
Record world := mkWorld {
  uuid_v4 : string;
  now : N;
  fault : db_step → option error
}.

Definition no_fault : db_step → option error := λ _, None.

(** ** Statements inside a transaction: an error monad over the database *)

Inductive result (A : Type) :=
| Ok (v : A)
| Err (e : error).
Arguments Ok {A} v.
Arguments Err {A} e.

Definition tx (A : Type) : Type := database → result (A * database).

#[global] Instance tx_ret : MRet tx := λ A a d, Ok (a, d).

#[global] Instance tx_bind : MBind tx := λ A B k m d,
  match m d with
  | Ok (a, d') => k a d'
  | Err e => Err e
  end.

Definition tx_fail {A} (e : error) : tx A := λ _, Err e.

(** A statement that fails when the world says so. *)
Definition stmt {A} (flt : db_step → option error) (s : db_step)
    (body : tx A) : tx A :=
  match flt s with
  | Some e => tx_fail e
  | None => body
  end.

(** ** The file system, as far as registration reads it *)

Inductive read_result :=
| ReadOk (content : string)
| ReadErr (code : string).

Record filesystem := mkFs {
  readFileAsync : string → read_result;
  (** [globAsync pattern cwd] *)
  globAsync : string → string → list string
}.

(** ** The state of one manager instance *)

Record state := mkState {
  db : database;
  pendingRevisionsByFolder : gmap string (list pending_row);
  trackedFolders : list string;
  logged : list log_entry
}.

Definition with_db (d : database) (st : state) : state :=
  mkState d (pendingRevisionsByFolder st) (trackedFolders st) (logged st).

Definition with_pending (name : string) (l : list pending_row) (st : state) : state :=
  mkState (db st) (<[name := l]> (pendingRevisionsByFolder st))
          (trackedFolders st) (logged st).

Definition track (name : string) (st : state) : state :=
  mkState (db st) (pendingRevisionsByFolder st) (trackedFolders st ++ [name])
          (logged st).

Definition log (e : log_entry) (st : state) : state :=
  mkState (db st) (pendingRevisionsByFolder st) (trackedFolders st)
          (logged st ++ [e]).

Definition REVISIONS_FILE_NAME : string := ".ghost-revisions".

(** ** Queries and statements on the tables *)

(** [knex('ghost_content').where({ folder, file })] *)
Definition select_content (folder file : string) (d : database) : list content_row :=
  filter (λ c, c_folder c = folder ∧ c_file c = file) (ghost_content d).

(** [knex('ghost_content').where({ folder, file, deleted: false })] *)
Definition select_live (folder file : string) (d : database) : list content_row :=
  filter (λ c, c_folder c = folder ∧ c_file c = file ∧ c_deleted c = false)
         (ghost_content d).

(** [.where(idField, id).update(data)] on [ghost_content] *)
Definition update_content (id : positive) (f : content_row → content_row)
    (d : database) : database :=
  mkDb ((λ c, if decide (c_id c = id) then f c else c) <$> ghost_content d)
       (ghost_revisions d) (next_content_id d) (next_revision_id d).

Definition set_content (content : option string) (c : content_row) : content_row :=
  mkContent (c_id c) (c_folder c) (c_file c) content (c_deleted c).

Definition tombstone (c : content_row) : content_row :=
  mkContent (c_id c) (c_folder c) (c_file c) None true.

(** [.insert({ folder, file, content })]: the key is auto-incremented and
    [deleted] takes its default, false. *)
Definition insert_content (folder file content : string) (d : database) : database :=
  mkDb (ghost_content d ++
          [mkContent (next_content_id d) folder file (Some content) false])
       (ghost_revisions d) (Pos.succ (next_content_id d)) (next_revision_id d).

(** [knex('ghost_revisions').insert({ content_id, revision, created_by })];
    an undefined [content_id] is stored as NULL. *)
Definition insert_revision (content_id : option positive) (revision : string)
    (created_on : N) (d : database) : database :=
  mkDb (ghost_content d)
       (ghost_revisions d ++
          [mkRevision (next_revision_id d) content_id revision created_on "admin"])
       (next_content_id d) (Pos.succ (next_revision_id d)).

(** [knex('ghost_revisions').whereIn('id', ids).del()] *)
Definition delete_revisions (ids : list positive) (d : database) : database :=
  mkDb (ghost_content d)
       (filter (λ r, r_id r ∉ ids) (ghost_revisions d))
       (next_content_id d) (next_revision_id d).

(** [knex('ghost_content').whereNotIn('file', files).andWhere('folder', folder).del()] *)
Definition delete_content_not_in (files : list string) (folder : string)
    (d : database) : database :=
  mkDb (filter (λ c, ¬ ((c_file c ∉ files) ∧ c_folder c = folder))
               (ghost_content d))
       (ghost_revisions d) (next_content_id d) (next_revision_id d).

(** [upsert] with [tableName] 'ghost_content', [where] [{ folder, file }]
    and [data] [{ content }]: select the ids of the matching rows, update
    the row with the first id if there is one, insert otherwise. *)
Definition upsert (flt : db_step → option error)
    (folder file content : string) : tx unit :=
  res ← stmt flt StTxSelect (λ d, Ok (select_content folder file d, d));
  match head res with
  | Some row =>
      stmt flt StTxWrite
        (λ d, Ok (tt, update_content (c_id row) (set_content (Some content)) d))
  | None =>
      stmt flt StTxWrite (λ d, Ok (tt, insert_content folder file content d))
  end.

(** The order of [.orderBy('ghost_revisions.created_on', 'desc')]; rows of
    the same [created_on] come in the order the sort leaves them in. *)
Definition newer_first (a b : pending_row) : Prop :=
  (p_created_on b ≤ p_created_on a)%N.

#[global] Instance newer_first_dec a b : Decision (newer_first a b).
Proof. unfold newer_first. apply _. Defined.

(** The inner join of [ghost_revisions] and [ghost_content] on
    [ghost_content.id = ghost_revisions.content_id], restricted to one folder. *)
Definition joined (folder : string) (d : database) : list pending_row :=
  r ← ghost_revisions d;
  c ← filter (λ c, r_content_id r = Some (c_id c) ∧ c_folder c = folder)
             (ghost_content d);
  [mkPending (c_file c) (r_id r) (r_revision r) (r_created_on r) (r_created_by r)].

Definition getPendingRevisions (normalizedFolderName : string) (d : database)
    : list pending_row :=
  merge_sort newer_first (joined normalizedFolderName d).

(** ** The known-revisions file *)

(** The names every object inherits from [Object.prototype]; the value of
    each is truthy. *)
Definition Object_prototype_names : list string :=
  ["constructor"; "__defineGetter__"; "__defineSetter__"; "hasOwnProperty";
   "__lookupGetter__"; "__lookupSetter__"; "isPrototypeOf";
   "propertyIsEnumerable"; "toString"; "valueOf"; "__proto__";
   "toLocaleString"].

(** The object [knownRevisions] is modelled by the set of its own keys, the
    value of each being [true]. [acc[r] = true] adds the key [r], except for
    [__proto__], whose setter ignores a value that is not an object. *)
Definition set_true (r : string) (acc : gset string) : gset string :=
  if decide (r = "__proto__") then acc else {[r]} ∪ acc.

(** [knownRevisions[revision]] is truthy for an own key and for an
    inherited name. *)
Definition is_known (knownRevisions : gset string) (revision : string) : Prop :=
  revision ∈ knownRevisions ∨ revision ∈ Object_prototype_names.

#[global] Instance is_known_dec knownRevisions revision :
  Decision (is_known knownRevisions revision).
Proof. unfold is_known. apply _. Defined.

(** The chain on the content of the revisions file: trim, split on newlines,
    trim each line, drop the empty lines and those starting with [#], and
    collect the rest as the keys of an object. *)
Definition parseRevisions (content : string) : gset string :=
  foldl (λ acc r, set_true r acc) ∅
    (filter (λ s, JsString.is_empty s = false ∧ JsString.startsWith_hash s = false)
       (JsString.trim <$> JsString.split_lines (JsString.trim content))).

Section Manager.

(** [normalizeFolder] of ./util, which maps a root folder to
    [(folderPath, normalizedFolderName)], and [path.join] are taken as given. *)
Variable normalizeFolder : string → string * string.
Variable path_join : string → string → string.

(** [fs.readFileAsync(revisionsFile, 'utf-8').catch({ code: 'ENOENT' }, () => '')]
    followed by the parsing chain. *)
Definition readKnownRevisions (fs : filesystem) (folderPath : string)
    : result (gset string) :=
  match readFileAsync fs (path_join folderPath REVISIONS_FILE_NAME) with
  | ReadOk content => Ok (parseRevisions content)
  | ReadErr code =>
      if decide (code = "ENOENT") then Ok (parseRevisions "")
      else Err (FsError code)
  end.

(** [recordFile]: read the file, then upsert its content, outside of any
    transaction and without a revision.  Database statements are taken to
    succeed during registration. *)
Definition recordFile (fs : filesystem) (folderPath folder file : string)
    (d : database) : result database :=
  match readFileAsync fs (path_join folderPath file) with
  | ReadOk content =>
      match upsert no_fault folder file content d with
      | Ok (_, d') => Ok d'
      | Err e => Err e
      end
  | ReadErr code => Err (FsError code)
  end.

(** [Promise.map(files, file => recordFile(...))]: every file is attempted;
    the promise rejects with the first failure, the other files are still
    recorded. *)
Definition recordFiles (fs : filesystem) (folderPath folder : string)
    (files : list string) (d : database) : option error * database :=
  foldl (λ acc file,
           match recordFile fs folderPath folder file acc.2 with
           | Ok d' => (acc.1, d')
           | Err e => (Some (default e acc.1), acc.2)
           end)
        (None, d) files.

(** [addRootFolder] from [const [revisionsToDelete, remainingRevisions] = ...]
    on, once the known revisions are there. The statements it sends to the
    database (the select of the revisions, the two deletions, the upserts)
    are taken to succeed; what can fail is the read of a matched file. *)
Definition reconcile (fs : filesystem) (filesGlob folderPath
    normalizedFolderName : string) (knownRevisions : gset string)
    (st : state) : outcome unit * state :=
  let dbRevisions := getPendingRevisions normalizedFolderName (db st) in
  let revisionsToDelete :=
    filter (λ p, is_known knownRevisions (p_revision p)) dbRevisions in
  let remainingRevisions :=
    filter (λ p, ¬ is_known knownRevisions (p_revision p)) dbRevisions in
  let st :=
    match revisionsToDelete with
    | [] => st
    | _ :: _ =>
        with_db (delete_revisions (p_id <$> revisionsToDelete) (db st))
          (log (DebugDeleting normalizedFolderName (length revisionsToDelete)) st)
    end in
  match remainingRevisions with
  | _ :: _ =>
      (Fulfilled tt,
       with_pending normalizedFolderName remainingRevisions
         (log (DebugPending normalizedFolderName (length remainingRevisions)) st))
  | [] =>
      let st := log (DebugNoPending normalizedFolderName) st in
      let files := globAsync fs filesGlob folderPath in
      match recordFiles fs folderPath normalizedFolderName files (db st) with
      | (Some e, d) => (Rejected e, with_db d st)
      | (None, d) =>
          (Fulfilled tt,
           with_db (delete_content_not_in files normalizedFolderName d) st)
      end
  end.

Definition addRootFolder (fs : filesystem) (rootFolder filesGlob : string)
    (st : state) : outcome unit * state :=
  let folderPath := (normalizeFolder rootFolder).1 in
  let normalizedFolderName := (normalizeFolder rootFolder).2 in
  let st := track normalizedFolderName (log (DebugAdding normalizedFolderName) st) in
  match readKnownRevisions fs folderPath with
  | Err e => (Rejected e, st)
  | Ok knownRevisions =>
      reconcile fs filesGlob folderPath normalizedFolderName knownRevisions st
  end.

Definition updatePendingForFolder (normalizedFolderName : string) (st : state)
    : state :=
  with_pending normalizedFolderName
    (getPendingRevisions normalizedFolderName (db st)) st.

(** Both transaction chains, up to the settlement of the promise of the
    caller. When a statement of the transaction fails, the failure is logged
    and [trx.rollback()] is called, without an argument: the database is left
    as it was when the transaction began and the promise is rejected, with
    the error knex makes up for a rollback without a reason. Otherwise
    [trx.commit], which is taken to succeed, fulfils the promise, the
    statements of the transaction being in the database. *)
Definition settle_transaction (body : tx unit) (st : state)
    : outcome unit * state :=
  match body (db st) with
  | Err e => (Rejected TransactionRejectedWithNonError, log (ErrorLogged e) st)
  | Ok (_, d) => (Fulfilled tt, with_db d st)
  end.

(** What the chain does after the commit, the promise being fulfilled
    already: it refreshes the pending revisions of the folder; a failure of
    the refresh is logged, and [trx.rollback()], called after the commit,
    undoes nothing. *)
Definition after_commit (w : world) (normalizedFolderName : string)
    (st : state) : state :=
  match fault w StRefresh with
  | Some e => log (ErrorLogged e) st
  | None => updatePendingForFolder normalizedFolderName st
  end.

(** The whole chain: the settlement of the promise paired with the state at
    the end of the chain; [at_settlement] below gives the state in which the
    promise is settled. *)
Definition run_transaction (w : world) (normalizedFolderName : string)
    (body : tx unit) (st : state) : outcome unit * state :=
  match settle_transaction body st with
  | (Fulfilled v, st) => (Fulfilled v, after_commit w normalizedFolderName st)
  | (Rejected e, st) => (Rejected e, st)
  end.

Definition recordRevision (w : world) (rootFolder file newContent : string)
    (st : state) : outcome unit * state :=
  let normalizedFolderName := (normalizeFolder rootFolder).2 in
  match fault w StSelect with
  | Some e => (Rejected e, st)
  | None =>
      let row := head (select_content normalizedFolderName file (db st)) in
      let id := c_id <$> row in
      let content := row ≫= c_content in
      if decide (Some newContent = content) then (Fulfilled tt, st)
      else
        let revision := uuid_v4 w in
        run_transaction w normalizedFolderName
          (_ ← upsert (fault w) normalizedFolderName file newContent;
           stmt (fault w) StTxInsertRevision
             (λ d, Ok (tt, insert_revision id revision (now w) d)))
          st
  end.

Definition readFile (rootFolder file : string) (st : state)
    : outcome (option string) :=
  let normalizedFolderName := (normalizeFolder rootFolder).2 in
  match head (select_content normalizedFolderName file (db st)) with
  | None => Rejected TypeErrorUndefined
  | Some row => Fulfilled (c_content row)
  end.

Definition deleteFile (w : world) (rootFolder file : string) (st : state)
    : outcome unit * state :=
  let normalizedFolderName := (normalizeFolder rootFolder).2 in
  match fault w StSelect with
  | Some e => (Rejected e, st)
  | None =>
      match head (select_live normalizedFolderName file (db st)) with
      | None => (Rejected (CantDeleteFile file normalizedFolderName), st)
      | Some row =>
          let id := c_id row in
          let revision := uuid_v4 w in
          run_transaction w normalizedFolderName
            (_ ← stmt (fault w) StTxWrite
                   (λ d, Ok (tt, update_content id tombstone d));
             stmt (fault w) StTxInsertRevision
               (λ d, Ok (tt, insert_revision (Some id) revision (now w) d)))
            st
      end
  end.

Definition directoryListing (rootFolder fileEndingPattern : string) (st : state)
    : list string :=
  let normalizedFolderName := (normalizeFolder rootFolder).2 in
  c_file <$>
    filter (λ c, (c_folder c = normalizedFolderName ∧ c_deleted c = false)
                 ∧ JsString.like ("%" ++ fileEndingPattern) (c_file c) = true)
           (ghost_content (db st)).

Definition getPending (st : state) : gmap string (list pending_row) :=
  pendingRevisionsByFolder st.

Definition getPendingWithContentForFolder (d : database)
    (folderInfo : list pending_row) (normalizedFolderName : string)
    : pending_with_content :=
  let revisions := p_revision <$> folderInfo in
  let fileNames := remove_dups (p_file <$> folderInfo) in
  let files :=
    (λ c, mkFile (c_file c) (c_content c) (c_deleted c)) <$>
      filter (λ c, c_file c ∈ fileNames ∧ c_folder c = normalizedFolderName)
             (ghost_content d) in
  mkPendingWithContent files revisions.

Definition getPendingWithContent (st : state) : gmap string pending_with_content :=
  map_imap (λ name folderInfo,
              Some (getPendingWithContentForFolder (db st) folderInfo name))
           (pendingRevisionsByFolder st).

End Manager.

(** ** The names of the two files of a flow (src/dialog/provider.js)

    A flow is kept in two files of the flows folder, [x.flow.json] and
    [x.ui.json]. [loadAll] and [_prepareSaveFlow] each compute the name of
    the second from the name of the first, with [String.prototype.replace]
    and a regular expression that is a plain word. *)

Module FlowProvider.

(** Lower case of an ASCII letter; the flag [i] makes a letter of the
    pattern match its two cases. *)
Definition ascii_lower (a : ascii) : ascii :=
  let n := nat_of_ascii a in
  if (65 <=? n)%nat && (n <=? 90)%nat then ascii_of_nat (n + 32) else a.

(** Whether [s] starts with the word [pat], characters being compared
    with [eqc]. *)
Fixpoint starts_with (eqc : ascii → ascii → bool) (pat s : string) : bool :=
  match pat, s with
  | EmptyString, _ => true
  | String _ _, EmptyString => false
  | String p pat', String c s' => eqc p c && starts_with eqc pat' s'
  end.

Fixpoint drop (n : nat) (s : string) : string :=
  match n, s with
  | O, _ => s
  | S _, EmptyString => EmptyString
  | S n', String _ s' => drop n' s'
  end.

(** [s.replace(/pat/g, rep)] for a word [pat] that is not empty: every
    match, from left to right, the search going on after each match. [skip]
    counts the characters of a match still to pass over. *)
Fixpoint replace_all_from (pat rep : string) (skip : nat) (s : string) : string :=
  match s with
  | EmptyString => EmptyString
  | String c s' =>
      match skip with
      | S k => replace_all_from pat rep k s'
      | O =>
          if starts_with Ascii.eqb pat s
          then rep ++ replace_all_from pat rep (String.length pat - 1) s'
          else String c (replace_all_from pat rep 0 s')
      end
  end.

Definition replace_all (pat rep s : string) : string :=
  replace_all_from pat rep 0 s.

(** [s.replace(/pat/i, rep)] for a lower-case word [pat]: the first match
    only, letters matching in both cases. *)
Fixpoint replace_first_ci (pat rep s : string) : string :=
  if starts_with (λ p c, Ascii.eqb p (ascii_lower c)) pat s
  then rep ++ drop (String.length pat) s
  else match s with
       | EmptyString => EmptyString
       | String c s' => String c (replace_first_ci pat rep s')
       end.

(** [name.replace(/\.flow/g, '.ui')] of [loadAll] *)
Definition uiFileName (name : string) : string :=
  replace_all ".flow" ".ui" name.

(** [flowPath.replace(/\.flow\.json/i, '.ui.json')] of [_prepareSaveFlow] *)
Definition uiPath (flowPath : string) : string :=
  replace_first_ci ".flow.json" ".ui.json" flowPath.

(** A name without a dot. *)
Fixpoint no_dot (s : string) : bool :=
  match s with
  | EmptyString => true
  | String c s' => negb (nat_of_ascii c =? 46)%nat && no_dot s'
  end.

End FlowProvider.

(** ** Well-formed databases *)

(** The keys of both tables are primary keys handed out by the counters. *)
Definition wf_content (d : database) : Prop :=
  NoDup (c_id <$> ghost_content d) ∧
  ∀ c, c ∈ ghost_content d → (c_id c < next_content_id d)%positive.

Definition wf_revisions (d : database) : Prop :=
  NoDup (r_id <$> ghost_revisions d) ∧
  ∀ r, r ∈ ghost_revisions d → (r_id r < next_revision_id d)%positive.

(** [(folder, file)] identifies one row of [ghost_content]. *)
Definition unique_keys (d : database) : Prop :=
  ∀ c1 c2, c1 ∈ ghost_content d → c2 ∈ ghost_content d →
    c_folder c1 = c_folder c2 → c_file c1 = c_file c2 → c1 = c2.

(** The invariant of the database: primary keys on both tables, one row
    per [(folder, file)]. *)
Definition wf_database (d : database) : Prop :=
  wf_content d ∧ wf_revisions d ∧
  NoDup ((λ c, (c_folder c, c_file c)) <$> ghost_content d).

(** No row of the folder is a tombstone. *)
Definition all_live (folder : string) (d : database) : Prop :=
  ∀ c, c ∈ ghost_content d → c_folder c = folder → c_deleted c = false.


(** [uuid.v4()] returns a token that is in use nowhere: not in
    [ghost_revisions], not in the pending revisions kept in memory. *)
Definition fresh_token (t : string) (st : state) : Prop :=
  (∀ r, r ∈ ghost_revisions (db st) → r_revision r ≠ t) ∧
  (∀ g l p, pendingRevisionsByFolder st !! g = Some l → p ∈ l → p_revision p ≠ t).

(** ** Definitions the statements are written with *)

(** What a successful [upsert] leaves behind. *)
Definition upserted (folder file content : string) (d : database) : database :=
  match head (select_content folder file d) with
  | Some row => update_content (c_id row) (set_content (Some content)) d
  | None => insert_content folder file content d
  end.

(** The content [recordRevision] compares the new content with: undefined
    without a row, null on a tombstone. *)
Definition stored_content (folder file : string) (d : database) : option string :=
  head (select_content folder file d) ≫= c_content.

(** The lines that count: not empty and not a comment, once trimmed. *)
Definition tokens (lines : list string) : list string :=
  filter (λ s, JsString.is_empty s = false ∧ JsString.startsWith_hash s = false)
         (JsString.trim <$> lines).

(** The [(folder, file)] pairs of [ghost_content], in row order. *)
Definition keys (d : database) : list (string * string) :=
  (λ c, (c_folder c, c_file c)) <$> ghost_content d.

(** What [recordFile] reads for a file that can be read. *)
Definition file_content (path_join : string → string → string)
    (fs : filesystem) (folderPath file : string) : string :=
  match readFileAsync fs (path_join folderPath file) with
  | ReadOk content => content
  | ReadErr _ => ""
  end.

(** What [recordFiles] leaves behind when every file can be read. *)
Definition recorded (path_join : string → string → string) (fs : filesystem)
    (folderPath folder : string) (files : list string) (d : database) : database :=
  foldl (λ d file,
           upserted folder file (file_content path_join fs folderPath file) d)
        d files.

(** An ending pattern without the two wildcards of [LIKE]. *)
Fixpoint no_wildcard (s : string) : bool :=
  match s with
  | EmptyString => true
  | String a s' =>
      negb (nat_of_ascii a =? 37)%nat && negb (nat_of_ascii a =? 95)%nat
      && no_wildcard s'
  end.

(** The state in which the promise of [recordRevision] or [deleteFile] is
    settled, from the state [st] before the call and the result [r] of the
    whole chain: a promise that is fulfilled is fulfilled by [trx.commit],
    when the statements of the transaction are in the database and the
    refresh of the pending revisions, with what it may log, is still to
    come; a rejection comes last. *)
Definition at_settlement (st : state) (r : outcome unit * state) : state :=
  match r.1 with
  | Fulfilled _ => with_db (db r.2) st
  | Rejected _ => r.2
  end.

(** No token in [ghost_revisions] names a property objects inherit: the
    tokens there are those [uuid.v4()] gave, 36 characters each. *)
Definition tokens_generated (d : database) : Prop :=
  ∀ r, r ∈ ghost_revisions d → r_revision r ∉ Object_prototype_names.

(** *** What the revisions file says, in its own terms

    The lines of a text are the pieces without a newline that, joined by
    newlines, give the text. A token of the file is what is left of a line
    once the white space around it is taken off, when something is left
    and it does not start with [#]. *)

Definition white_space_codes : list nat := [9; 10; 11; 12; 13; 32; 160].

Fixpoint all_white (s : string) : Prop :=
  match s with
  | EmptyString => True
  | String c s' => nat_of_ascii c ∈ white_space_codes ∧ all_white s'
  end.

Fixpoint no_newline (s : string) : Prop :=
  match s with
  | EmptyString => True
  | String c s' => nat_of_ascii c ≠ 10 ∧ no_newline s'
  end.

Definition newline : string := String (ascii_of_nat 10) EmptyString.

Fixpoint join_lines (ls : list string) : string :=
  match ls with
  | [] => EmptyString
  | l :: ls' =>
      match ls' with
      | [] => l
      | _ :: _ => l ++ newline ++ join_lines ls'
      end
  end.

Definition lines_of (content : string) (ls : list string) : Prop :=
  ls ≠ [] ∧ content = join_lines ls ∧ Forall no_newline ls.

Definition first_code (s : string) : option nat :=
  match s with
  | EmptyString => None
  | String c _ => Some (nat_of_ascii c)
  end.

Fixpoint last_code (s : string) : option nat :=
  match s with
  | EmptyString => None
  | String c s' =>
      match s' with
      | EmptyString => Some (nat_of_ascii c)
      | String _ _ => last_code s'
      end
  end.

Definition manifest_token (content t : string) : Prop :=
  ∃ ls line before after,
    lines_of content ls ∧ line ∈ ls ∧
    line = before ++ t ++ after ∧ all_white before ∧ all_white after ∧
    (∃ c, first_code t = Some c ∧ (c ∉ white_space_codes) ∧ c ≠ 35) ∧
    (∃ c, last_code t = Some c ∧ c ∉ white_space_codes).

(** *** Words that differ by the case of ASCII letters only *)

Definition same_letter (a b : ascii) : Prop :=
  a = b ∨
  ∃ n, (65 ≤ n ≤ 90)%nat ∧
       ((nat_of_ascii a = n ∧ nat_of_ascii b = (n + 32)%nat) ∨
        (nat_of_ascii a = (n + 32)%nat ∧ nat_of_ascii b = n)).

Fixpoint same_word (s1 s2 : string) : Prop :=
  match s1, s2 with
  | EmptyString, EmptyString => True
  | String a s1', String b s2' => same_letter a b ∧ same_word s1' s2'
  | _, _ => False
  end.

(** ** A small project to run the operations on

    The bot lives in [/bot]; its flows folder holds [a.json] and [b.json]
    and no revisions file. *)

Definition sample_normalizeFolder (rootFolder : string) : string * string :=
  ("/bot/" ++ rootFolder, rootFolder).

Definition sample_path_join (a b : string) : string := a ++ "/" ++ b.

Definition sample_fs : filesystem :=
  mkFs (λ p, if decide (p = "/bot/flows/a.json") then ReadOk "A"
             else if decide (p = "/bot/flows/b.json") then ReadOk "B"
             else ReadErr "ENOENT")
       (λ _ cwd, if decide (cwd = "/bot/flows") then ["a.json"; "b.json"] else []).

Definition empty_state : state := mkState (mkDb [] [] 1 1) ∅ [] [].

(** After [addRootFolder('flows', '**/*.json')]. *)
Definition registered_state : state :=
  (addRootFolder sample_normalizeFolder sample_path_join sample_fs
     "flows" "**/*.json" empty_state).2.

(** After [recordRevision('flows', 'a.json', 'v2')]. *)
Definition revised_state : state :=
  (recordRevision sample_normalizeFolder (mkWorld "uuid-1" 10 no_fault)
     "flows" "a.json" "v2" registered_state).2.

(** After [deleteFile('flows', 'b.json')]. *)
Definition deleted_state : state :=
  (deleteFile sample_normalizeFolder (mkWorld "uuid-2" 11 no_fault)
     "flows" "b.json" revised_state).2.

(** The same project once [uuid-1] has been released: the revisions file
    of the flows folder lists it. *)
Definition released_fs : filesystem :=
  mkFs (λ p, if decide (p = "/bot/flows/.ghost-revisions")
             then ReadOk "# released revisions
uuid-1
"
             else readFileAsync sample_fs p)
       (globAsync sample_fs).



(** A database no call of [recordRevision] leaves behind: the revision of
    [a.json] has the token [constructor]. *)
Definition constructor_state : state :=
  mkState
    (mkDb [mkContent 1 "flows" "a.json" (Some "v2") false]
          [mkRevision 1 (Some 1%positive) "constructor" 10 "admin"] 2 2)
    ∅ [] [].

(** A world in which only the refresh of the pending revisions fails. *)
Definition failing_refresh : world :=
  mkWorld "uuid-6" 15
    (λ s, if decide (s = StRefresh) then Some (DbError "SQLITE_BUSY") else None).

(** The sample project with a directory [dir.json] among the matches:
    reading it fails. *)
Definition broken_fs : filesystem :=
  mkFs (λ p, if decide (p = "/bot/flows/dir.json") then ReadErr "EISDIR"
             else readFileAsync sample_fs p)
       (λ _ cwd, if decide (cwd = "/bot/flows")
                 then ["a.json"; "dir.json"; "b.json"] else []).

(** After [recordRevision('skills', 's.json', 'S')] on the registered
    project: a second folder. *)
Definition two_folder_state : state :=
  (recordRevision sample_normalizeFolder (mkWorld "uuid-7" 16 no_fault)
     "skills" "s.json" "S" registered_state).2.

(** ** The operations on the sample project *)

Example trim_example :
  JsString.trim "  uuid-1 	" = "uuid-1" ∧ JsString.trim "   " = "" ∧
  JsString.split_lines "" = [""] ∧
  JsString.split_lines "a

b" = ["a"; ""; "b"].
Proof. by vm_compute. Qed.

Example like_example :
  JsString.like "%.json" "a.flow.json" = true ∧
  JsString.like "%.json" "a.json.bak" = false ∧
  JsString.like "%_.ui" "x.ui" = true ∧
  JsString.like "%.JSON" "a.json" = true ∧
  JsString.like "%.json" "A.JSON" = true ∧
  JsString.like "%" "" = true.
Proof. by vm_compute. Qed.

Example parseRevisions_example :
  parseRevisions "# released revisions
uuid-1
   
  uuid-7  
#uuid-8" = {["uuid-1"; "uuid-7"]} ∧
  parseRevisions "" = ∅.
Proof. by vm_compute. Qed.

(** [knownRevisions[revision]] on a token that names a property every
    object inherits: with no revisions file at all, the revision of
    [constructor_state] counts as known; registration deletes it and, no
    revision being left, takes the content of [a.json] from the disk. *)
Example inherited_name_is_known :
  let registered :=
    addRootFolder sample_normalizeFolder sample_path_join sample_fs
      "flows" "**/*.json" constructor_state in
  readKnownRevisions sample_path_join sample_fs "/bot/flows" = Ok ∅ ∧
  registered.1 = Fulfilled tt ∧
  ghost_revisions (db registered.2) = [] ∧
  stored_content "flows" "a.json" (db constructor_state) = Some "v2" ∧
  stored_content "flows" "a.json" (db registered.2) = Some "A".
Proof. by vm_compute. Qed.

(** The promise of a mutating call is settled before the pending revisions
    are refreshed. *)
Example settlement_before_refresh :
  let called :=
    recordRevision sample_normalizeFolder (mkWorld "uuid-1" 10 no_fault)
      "flows" "a.json" "v2" registered_state in
  called.1 = Fulfilled tt ∧
  stored_content "flows" "a.json" (db (at_settlement registered_state called))
  = Some "v2" ∧
  getPending (at_settlement registered_state called) !! "flows" = None ∧
  getPending called.2 !! "flows"
  = Some [mkPending "a.json" 1 "uuid-1" 10 "admin"].
Proof. by vm_compute. Qed.

(** Registering [flows] with [a.json] and [b.json] on disk, then revising
    [a.json], then deleting [b.json]. *)
Example sample_run :
  directoryListing sample_normalizeFolder "flows" "" registered_state
  = ["a.json"; "b.json"] ∧
  readFile sample_normalizeFolder "flows" "a.json" registered_state
  = Fulfilled (Some "A") ∧
  getPending revised_state !! "flows"
  = Some [mkPending "a.json" 1 "uuid-1" 10 "admin"] ∧
  directoryListing sample_normalizeFolder "flows" "" deleted_state = ["a.json"] ∧
  getPending deleted_state !! "flows"
  = Some [mkPending "b.json" 2 "uuid-2" 11 "admin";
          mkPending "a.json" 1 "uuid-1" 10 "admin"].
Proof. by vm_compute. Qed.

(** ** Lemmas on the tables *)

Lemma filter_fmap_commute {A} (P : A → Prop) `{!∀ x, Decision (P x)}
    (g : A → A) (l : list A) :
  (∀ x, P (g x) ↔ P x) → filter P (g <$> l) = g <$> filter P l.
Proof.
  intros Hg. induction l as [|x l IH]; [done|].
  rewrite fmap_cons, !filter_cons.
  destruct (decide (P (g x))) as [Hy|Hn], (decide (P x)) as [Hy'|Hn'];
    rewrite ?fmap_cons, IH; try done; exfalso;
    first [by apply Hn', Hg | by apply Hn, Hg].
Qed.

Lemma NoDup_fmap_elem_eq {A B} (f : A → B) (l : list A) x y :
  NoDup (f <$> l) → x ∈ l → y ∈ l → f x = f y → x = y.
Proof.
  induction l as [|z l IH]; [by intros _ ?%elem_of_nil|].
  rewrite fmap_cons, NoDup_cons.
  intros [Hz Hl] [->|Hx]%elem_of_cons [->|Hy]%elem_of_cons Hf; auto.
  - exfalso. apply Hz. rewrite Hf. by apply list_elem_of_fmap_2.
  - exfalso. apply Hz. rewrite <- Hf. by apply list_elem_of_fmap_2.
Qed.

Lemma head_filter_None {A} (P : A → Prop) `{!∀ x, Decision (P x)} (l : list A) :
  head (filter P l) = None → filter P l = [].
Proof. by destruct (filter P l). Qed.

Lemma head_elem_of {A} (l : list A) (x : A) : head l = Some x → x ∈ l.
Proof. destruct l; [done|]. intros [= ->]. left. Qed.

Lemma select_content_update id f folder file d :
  (∀ c, c_folder (f c) = c_folder c ∧ c_file (f c) = c_file c) →
  select_content folder file (update_content id f d) =
  (λ c, if decide (c_id c = id) then f c else c) <$> select_content folder file d.
Proof.
  intros Hf. unfold select_content, update_content. simpl.
  apply filter_fmap_commute. intros c. case_decide; [|done].
  destruct (Hf c) as [-> ->]. done.
Qed.

Lemma head_select_update folder file d row content :
  head (select_content folder file d) = Some row →
  head (select_content folder file
          (update_content (c_id row) (set_content content) d))
  = Some (set_content content row).
Proof.
  intros H. rewrite select_content_update by done.
  destruct (select_content folder file d) as [|c l]; [done|].
  injection H as ->. simpl. by rewrite decide_True.
Qed.

Lemma select_content_insert folder file content d :
  head (select_content folder file d) = None →
  select_content folder file (insert_content folder file content d)
  = [mkContent (next_content_id d) folder file (Some content) false].
Proof.
  intros H%head_filter_None. unfold select_content in *. simpl.
  rewrite filter_app, H. simpl. rewrite filter_cons. simpl.
  by rewrite decide_True.
Qed.

Lemma upsert_Ok flt folder file content d u d' :
  upsert flt folder file content d = Ok (u, d') →
  d' = upserted folder file content d.
Proof.
  unfold upsert, upserted, mbind, tx_bind, stmt, tx_fail.
  destruct (flt StTxSelect); [done|].
  destruct (head (select_content folder file d));
    destruct (flt StTxWrite); congruence.
Qed.

Lemma upsert_no_fault folder file content d :
  upsert no_fault folder file content d = Ok (tt, upserted folder file content d).
Proof.
  unfold upsert, upserted, mbind, tx_bind, stmt, no_fault.
  by destruct (head (select_content folder file d)).
Qed.

Lemma head_select_upserted folder file content d :
  ∃ row, head (select_content folder file (upserted folder file content d))
         = Some row ∧ c_content row = Some content.
Proof.
  unfold upserted.
  destruct (head (select_content folder file d)) as [row|] eqn:H.
  - eexists. split; [by apply head_select_update|done].
  - rewrite select_content_insert by done. eexists. split; done.
Qed.

Lemma run_transaction_Fulfilled w name body st v st' :
  run_transaction w name body st = (Fulfilled v, st') →
  ∃ u d, body (db st) = Ok (u, d) ∧ db st' = d ∧
         trackedFolders st' = trackedFolders st.
Proof.
  unfold run_transaction, settle_transaction, after_commit.
  destruct (body (db st)) as [[u d]|e]; [|done].
  intros H. exists u, d. split; [done|].
  destruct (fault w StRefresh); by injection H as _ <-.
Qed.

Lemma run_transaction_no_fault w name body st u d :
  body (db st) = Ok (u, d) → fault w StRefresh = None →
  run_transaction w name body st
  = (Fulfilled tt, updatePendingForFolder name (with_db d st)).
Proof. unfold run_transaction, settle_transaction, after_commit. by intros -> ->. Qed.


(** The two statements of the transaction of [recordRevision]. *)
Lemma record_body_Ok flt folder file content id revision created_on d u d' :
  (_ ← upsert flt folder file content;
   stmt flt StTxInsertRevision
     (λ d, Ok (tt, insert_revision id revision created_on d))) d = Ok (u, d') →
  d' = insert_revision id revision created_on (upserted folder file content d).
Proof.
  unfold mbind at 1. unfold tx_bind at 1.
  destruct (upsert flt folder file content d) as [[[] d1]|e] eqn:Hu; [|done].
  apply upsert_Ok in Hu as ->. unfold stmt, tx_fail.
  destruct (flt StTxInsertRevision); congruence.
Qed.

(** ** Lemmas on [upsert] and on the resynchronisation *)

Lemma elem_of_keys folder file d :
  (folder, file) ∈ keys d ↔
  ∃ c, c ∈ ghost_content d ∧ c_folder c = folder ∧ c_file c = file.
Proof.
  unfold keys. rewrite list_elem_of_fmap. split.
  - intros (c & [= -> ->] & Hc). by exists c.
  - intros (c & Hc & <- & <-). by exists c.
Qed.

Lemma head_select_Some folder file d row :
  head (select_content folder file d) = Some row →
  row ∈ ghost_content d ∧ c_folder row = folder ∧ c_file row = file.
Proof.
  intros H%head_elem_of. unfold select_content in H.
  apply list_elem_of_filter in H as [[? ?] ?]. done.
Qed.

Lemma head_select_None folder file d :
  head (select_content folder file d) = None → (folder, file) ∉ keys d.
Proof.
  intros H%head_filter_None (c & Hc & Hf & Hfile)%elem_of_keys.
  assert (Hin : c ∈ select_content folder file d)
    by (by apply list_elem_of_filter).
  unfold select_content in Hin. rewrite H in Hin. by apply elem_of_nil in Hin.
Qed.

Lemma keys_update_content id content d :
  keys (update_content id (set_content content) d) = keys d.
Proof.
  unfold keys, update_content. simpl. rewrite <- list_fmap_compose.
  apply list_fmap_ext. intros i c _. simpl. by case_decide.
Qed.

Lemma keys_upserted folder file content d :
  keys (upserted folder file content d) =
  if decide ((folder, file) ∈ keys d) then keys d
  else (keys d ++ [(folder, file)])%list.
Proof.
  unfold upserted.
  destruct (head (select_content folder file d)) as [row|] eqn:Hrow.
  - apply head_select_Some in Hrow as (Hin & Hf & Hfile).
    rewrite decide_True by (apply elem_of_keys; by exists row).
    apply keys_update_content.
  - apply head_select_None in Hrow. rewrite decide_False by done.
    unfold keys, insert_content. simpl. by rewrite fmap_app.
Qed.

Lemma wf_content_upserted folder file content d :
  wf_content d → wf_content (upserted folder file content d).
Proof.
  intros [Hnd Hlt]. unfold upserted.
  destruct (head (select_content folder file d)) as [row|].
  - unfold wf_content, update_content. simpl.
    assert (Hids : c_id <$> ((λ c, if decide (c_id c = c_id row)
                                   then set_content (Some content) c else c)
                             <$> ghost_content d) = c_id <$> ghost_content d).
    { rewrite <- list_fmap_compose. apply list_fmap_ext. intros i c _. simpl.
      by case_decide. }
    split; [by rewrite Hids|].
    intros c' (c & -> & Hc)%list_elem_of_fmap. specialize (Hlt c Hc).
    by case_decide.
  - unfold wf_content, insert_content. simpl. split.
    + rewrite fmap_app. apply NoDup_app. split_and!; [done| |apply NoDup_singleton].
      intros i (c & -> & Hc)%list_elem_of_fmap Heq%list_elem_of_singleton.
      specialize (Hlt c Hc). simpl in Heq. lia.
    + intros c [Hc| ->%list_elem_of_singleton]%elem_of_app; simpl; [|lia].
      specialize (Hlt c Hc). lia.
Qed.

(** An upsert leaves the rows of every other file of the folder alone. *)
Lemma select_upserted_other folder file file' content d :
  wf_content d → file ≠ file' →
  select_content folder file (upserted folder file' content d)
  = select_content folder file d.
Proof.
  intros [Hnd _] Hne. unfold upserted.
  destruct (head (select_content folder file' d)) as [row|] eqn:Hrow.
  - apply head_select_Some in Hrow as (Hin & Hf & Hfile).
    rewrite select_content_update by done.
    rewrite <- (list_fmap_id (select_content folder file d)) at 2.
    apply list_fmap_ext. intros i c Hc%list_elem_of_lookup_2. simpl.
    apply list_elem_of_filter in Hc as [[_ Hcf] Hc].
    case_decide as Hid; [|done]. exfalso. apply Hne.
    rewrite <- Hcf, <- Hfile. f_equal.
    by apply (NoDup_fmap_elem_eq c_id (ghost_content d)).
  - unfold select_content, insert_content. simpl.
    rewrite filter_app, filter_cons. simpl.
    rewrite decide_False by (intros [_ ?]; by apply Hne).
    by rewrite filter_nil, app_nil_r.
Qed.

Lemma recorded_cons path_join fs folderPath folder f files d :
  recorded path_join fs folderPath folder (f :: files) d
  = recorded path_join fs folderPath folder files
      (upserted folder f (file_content path_join fs folderPath f) d).
Proof. done. Qed.

Lemma recordFiles_acc path_join fs folderPath folder files err d :
  (∀ f, f ∈ files →
        ∃ c, readFileAsync fs (path_join folderPath f) = ReadOk c) →
  foldl (λ acc file,
           match recordFile path_join fs folderPath folder file acc.2 with
           | Ok d' => (acc.1, d')
           | Err e => (Some (default e acc.1), acc.2)
           end) (err, d) files
  = (err, recorded path_join fs folderPath folder files d).
Proof.
  revert d. induction files as [|f files IH]; intros d Hread; [done|].
  destruct (Hread f) as [c Hc]; [left|].
  assert (Hrec : recordFile path_join fs folderPath folder f d
                 = Ok (upserted folder f (file_content path_join fs folderPath f) d)).
  { unfold recordFile, file_content. by rewrite Hc, upsert_no_fault. }
  rewrite recorded_cons. simpl. rewrite Hrec. simpl. apply IH.
  intros g Hg. apply Hread. by right.
Qed.

Lemma recordFiles_readable path_join fs folderPath folder files d :
  (∀ f, f ∈ files →
        ∃ c, readFileAsync fs (path_join folderPath f) = ReadOk c) →
  recordFiles path_join fs folderPath folder files d
  = (None, recorded path_join fs folderPath folder files d).
Proof. apply recordFiles_acc. Qed.

Lemma wf_content_recorded path_join fs folderPath folder files d :
  wf_content d → wf_content (recorded path_join fs folderPath folder files d).
Proof.
  revert d. induction files as [|f files IH]; intros d Hwf; [done|].
  rewrite recorded_cons. by apply IH, wf_content_upserted.
Qed.

Lemma revisions_recorded path_join fs folderPath folder files d :
  ghost_revisions (recorded path_join fs folderPath folder files d)
  = ghost_revisions d.
Proof.
  revert d. induction files as [|f files IH]; intros d; [done|].
  rewrite recorded_cons, IH. unfold upserted.
  by destruct (head (select_content folder f d)).
Qed.

Lemma elem_of_keys_recorded path_join fs folderPath folder files d k :
  k ∈ keys (recorded path_join fs folderPath folder files d) ↔
  k ∈ keys d ∨ ∃ f, f ∈ files ∧ k = (folder, f).
Proof.
  revert d. induction files as [|f files IH]; intros d.
  - simpl. split; [by left|]. intros [?|(f & ?%elem_of_nil & _)]; done.
  - rewrite recorded_cons, IH, keys_upserted. split.
    + intros [Hk|(g & Hg & ->)].
      * case_decide; [by left|].
        apply elem_of_app in Hk as [Hk| ->%list_elem_of_singleton]; [by left|].
        right. exists f. split; [left|done].
      * right. exists g. split; [by right|done].
    + intros [Hk|(g & [->|Hg]%elem_of_cons & ->)].
      * left. case_decide; [done|]. apply elem_of_app. by left.
      * left. case_decide; [done|]. apply elem_of_app. right. left.
      * right. by exists g.
Qed.

Lemma select_recorded_other path_join fs folderPath folder files file d :
  wf_content d → file ∉ files →
  select_content folder file (recorded path_join fs folderPath folder files d)
  = select_content folder file d.
Proof.
  revert d. induction files as [|f files IH]; intros d Hwf Hnot; [done|].
  apply not_elem_of_cons in Hnot as [Hne Hnot].
  rewrite recorded_cons, IH by (by try apply wf_content_upserted).
  by apply select_upserted_other.
Qed.

(** After the upserts every matched file has the content just read. *)
Lemma stored_recorded path_join fs folderPath folder files file d :
  wf_content d → file ∈ files →
  stored_content folder file (recorded path_join fs folderPath folder files d)
  = Some (file_content path_join fs folderPath file).
Proof.
  revert d. induction files as [|f files IH]; intros d Hwf Hin.
  { by apply elem_of_nil in Hin. }
  rewrite recorded_cons.
  destruct (decide (file ∈ files)) as [Hlater|Hlast].
  - by apply IH; [apply wf_content_upserted|].
  - apply elem_of_cons in Hin as [->|?]; [|done].
    unfold stored_content.
    rewrite select_recorded_other by (by try apply wf_content_upserted).
    destruct (head_select_upserted folder f
                (file_content path_join fs folderPath f) d) as (row & -> & Hc).
    done.
Qed.

Lemma select_content_delete_not_in folder file files d :
  file ∈ files →
  select_content folder file (delete_content_not_in files folder d)
  = select_content folder file d.
Proof.
  intros Hin. unfold select_content, delete_content_not_in. simpl.
  rewrite list_filter_filter. apply list_filter_iff. intros c. split.
  - by intros [? _].
  - intros [Hf Hfile]. split; [done|]. intros [Hnot _]. apply Hnot.
    by rewrite Hfile.
Qed.

Lemma elem_of_keys_delete_not_in folder file files d :
  (folder, file) ∈ keys (delete_content_not_in files folder d) ↔
  (folder, file) ∈ keys d ∧ file ∈ files.
Proof.
  rewrite !elem_of_keys. unfold delete_content_not_in. simpl. split.
  - intros (c & [Hkeep Hc]%list_elem_of_filter & Hf & Hfile). split.
    + by exists c.
    + destruct (decide (file ∈ files)) as [|Hnot]; [done|].
      exfalso. apply Hkeep. by rewrite Hfile.
  - intros [(c & Hc & Hf & Hfile) Hin]. exists c. split_and!; try done.
    apply list_elem_of_filter. split; [|done].
    intros [Hnot _]. apply Hnot. by rewrite Hfile.
Qed.

(** ** Lemmas on the parsing of the revisions file *)

Lemma is_empty_true s : JsString.is_empty s = true ↔ s = "".
Proof. by destruct s. Qed.

Lemma tokens_cons_blank l ls : JsString.trim l = "" → tokens (l :: ls) = tokens ls.
Proof.
  intros H. unfold tokens. rewrite fmap_cons, filter_cons, H.
  by rewrite decide_False by (by intros [? _]).
Qed.

Lemma tokens_cons_trim l l' ls ls' :
  JsString.trim l = JsString.trim l' → tokens ls = tokens ls' →
  tokens (l :: ls) = tokens (l' :: ls').
Proof.
  unfold tokens. intros Hl Hls. rewrite !fmap_cons, !filter_cons, Hl, Hls. done.
Qed.

Lemma split_lines_cons s :
  JsString.split_lines s
  = hd "" (JsString.split_lines s) :: tail (JsString.split_lines s).
Proof.
  destruct s as [|a s]; [done|]. simpl.
  destruct (JsString.is_newline a); [done|].
  by destruct (JsString.split_lines s).
Qed.

Lemma split_lines_String a s :
  JsString.split_lines (String a s) =
  if JsString.is_newline a then "" :: JsString.split_lines s
  else String a (hd "" (JsString.split_lines s)) :: tail (JsString.split_lines s).
Proof.
  simpl. destruct (JsString.is_newline a); [done|].
  rewrite (split_lines_cons s) at 1. done.
Qed.

Lemma trimEnd_empty_trimStart s :
  JsString.trimEnd s = "" → JsString.trimStart s = "".
Proof.
  induction s as [|a s IH]; [done|]. simpl.
  destruct (JsString.is_white_space a); [|done]. simpl.
  destruct (JsString.trimEnd s); [auto|done].
Qed.

Lemma trimEnd_empty_trim s : JsString.trimEnd s = "" → JsString.trim s = "".
Proof. intros H%trimEnd_empty_trimStart. unfold JsString.trim. by rewrite H. Qed.

Lemma trim_commute s :
  JsString.trimEnd (JsString.trimStart s) = JsString.trimStart (JsString.trimEnd s).
Proof.
  induction s as [|a s IH]; [done|]. simpl.
  destruct (JsString.is_white_space a) eqn:Ha; simpl.
  - rewrite IH. destruct (JsString.trimEnd s); simpl; [done|by rewrite Ha].
  - by rewrite Ha.
Qed.

Lemma trim_of_trimEnd l l' :
  JsString.trimEnd l = JsString.trimEnd l' → JsString.trim l = JsString.trim l'.
Proof. unfold JsString.trim. rewrite !trim_commute. by intros ->. Qed.

Lemma trimEnd_String a l l' :
  JsString.trimEnd l = JsString.trimEnd l' →
  JsString.trimEnd (String a l) = JsString.trimEnd (String a l').
Proof. simpl. by intros ->. Qed.

(** Trimming the start of the content only removes blank lines and the
    white space that starts a line. *)
Lemma tokens_trimStart s :
  tokens (JsString.split_lines (JsString.trimStart s))
  = tokens (JsString.split_lines s).
Proof.
  induction s as [|a s IH]; [done|].
  cbn [JsString.trimStart]. destruct (JsString.is_white_space a) eqn:Ha; [|done].
  rewrite IH, split_lines_String. destruct (JsString.is_newline a).
  - by rewrite tokens_cons_blank.
  - rewrite (split_lines_cons s) at 1. apply tokens_cons_trim; [|done].
    unfold JsString.trim. simpl. by rewrite Ha.
Qed.

Lemma split_lines_all_blank s :
  JsString.trimEnd s = "" →
  Forall (λ l, JsString.trimEnd l = "") (JsString.split_lines s).
Proof.
  induction s as [|a s IH]; [by repeat constructor|].
  intros H. simpl in H.
  destruct (JsString.is_white_space a) eqn:Ha; [|done]. simpl in H.
  destruct (JsString.trimEnd s) eqn:Hs; [|done].
  specialize (IH eq_refl). rewrite split_lines_String.
  destruct (JsString.is_newline a); [by constructor|].
  rewrite split_lines_cons in IH. apply Forall_cons in IH as [Hl Hls].
  constructor; [|done]. simpl. by rewrite Hl, Ha.
Qed.

Lemma tokens_all_blank ls :
  Forall (λ l, JsString.trimEnd l = "") ls → tokens ls = [].
Proof.
  induction 1 as [|l ls Hl _ IH]; [done|].
  rewrite tokens_cons_blank; [done|]. by apply trimEnd_empty_trim.
Qed.

(** Trimming the end of the content: the first line keeps its trimmed
    form, the other lines keep their tokens. *)
Lemma split_lines_trimEnd s :
  JsString.trimEnd (hd "" (JsString.split_lines (JsString.trimEnd s)))
  = JsString.trimEnd (hd "" (JsString.split_lines s)) ∧
  tokens (tail (JsString.split_lines (JsString.trimEnd s)))
  = tokens (tail (JsString.split_lines s)).
Proof.
  induction s as [|a s [IHhd IHtl]]; [done|].
  cbn [JsString.trimEnd].
  destruct (JsString.is_white_space a && JsString.is_empty (JsString.trimEnd s))
    eqn:Hcut.
  - apply andb_true_iff in Hcut as [Ha Hs%is_empty_true].
    assert (Hall : Forall (λ l, JsString.trimEnd l = "")
                     (JsString.split_lines (String a s))).
    { apply split_lines_all_blank. simpl. by rewrite Ha, Hs. }
    rewrite split_lines_cons in Hall. apply Forall_cons in Hall as [Hl Hls].
    simpl hd at 1. simpl tail at 1. split; [done|].
    symmetry. by apply tokens_all_blank.
  - rewrite !split_lines_String. destruct (JsString.is_newline a); simpl hd; simpl tail.
    + split; [done|].
      rewrite (split_lines_cons (JsString.trimEnd s)), (split_lines_cons s).
      apply tokens_cons_trim; [|done]. by apply trim_of_trimEnd.
    + split; [|done]. by apply trimEnd_String.
Qed.

Lemma tokens_trimEnd s :
  tokens (JsString.split_lines (JsString.trimEnd s))
  = tokens (JsString.split_lines s).
Proof.
  destruct (split_lines_trimEnd s) as [Hhd Htl].
  rewrite (split_lines_cons (JsString.trimEnd s)), (split_lines_cons s).
  apply tokens_cons_trim; [|done]. by apply trim_of_trimEnd.
Qed.

Lemma tokens_trim s :
  tokens (JsString.split_lines (JsString.trim s))
  = tokens (JsString.split_lines s).
Proof. unfold JsString.trim. by rewrite tokens_trimEnd, tokens_trimStart. Qed.

Lemma elem_of_foldl_set_true (l : list string) (acc : gset string) t :
  t ∈ foldl (λ acc r, set_true r acc) acc l ↔
  t ∈ acc ∨ (t ∈ l ∧ t ≠ "__proto__").
Proof.
  revert acc. induction l as [|x l IH]; intros acc; simpl.
  - rewrite elem_of_nil. tauto.
  - rewrite IH, elem_of_cons. unfold set_true. case_decide as Hx.
    + subst x. split; [tauto|]. intros [?|[[->|?] ?]]; tauto.
    + rewrite elem_of_union, elem_of_singleton. split; [|tauto].
      intros [[->|?]|?]; tauto.
Qed.

Lemma elem_of_parseRevisions content t :
  t ∈ parseRevisions content ↔
  (∃ line, line ∈ JsString.split_lines content ∧ t = JsString.trim line ∧
           t ≠ "" ∧ JsString.startsWith_hash t = false) ∧
  t ≠ "__proto__".
Proof.
  unfold parseRevisions. rewrite elem_of_foldl_set_true.
  change (filter _ (JsString.trim <$> ?l)) with (tokens l).
  rewrite tokens_trim. unfold tokens.
  rewrite list_elem_of_filter, list_elem_of_fmap. split.
  - intros [?%not_elem_of_empty|[[[Hne Hhash] (line & -> & Hline)] Hproto]];
      [done|].
    split; [|done].
    exists line. split_and!; try done. intros Heq. by rewrite Heq in Hne.
  - intros [(line & Hline & -> & Hne & Hhash) Hproto]. right.
    split; [|done]. split_and!; try done.
    + by destruct (JsString.trim line).
    + by exists line.
Qed.

(** *** The lines of a text *)

Lemma is_newline_spec c :
  JsString.is_newline c = true ↔ nat_of_ascii c = 10%nat.
Proof. unfold JsString.is_newline. apply Nat.eqb_eq. Qed.

Lemma is_newline_ascii c :
  JsString.is_newline c = true → c = ascii_of_nat 10.
Proof. intros H%is_newline_spec. by rewrite <- H, ascii_nat_embedding. Qed.

Lemma split_lines_no_newline s : Forall no_newline (JsString.split_lines s).
Proof.
  induction s as [|c s IH]; [by repeat constructor|].
  rewrite split_lines_String.
  destruct (JsString.is_newline c) eqn:Hc; [by constructor|].
  rewrite split_lines_cons in IH. apply Forall_cons in IH as [Hl Hls].
  constructor; [|done]. split; [|done].
  intros Hn%is_newline_spec. congruence.
Qed.

Lemma join_lines_cons l l' ls :
  join_lines (l :: l' :: ls) = l ++ newline ++ join_lines (l' :: ls).
Proof. done. Qed.

Lemma join_lines_String c l ls :
  join_lines (String c l :: ls) = String c (join_lines (l :: ls)).
Proof. by destruct ls. Qed.

Lemma join_split_lines s : join_lines (JsString.split_lines s) = s.
Proof.
  induction s as [|c s IH]; [done|].
  rewrite split_lines_String.
  destruct (JsString.is_newline c) eqn:Hc.
  - rewrite (split_lines_cons s), join_lines_cons, <- split_lines_cons, IH.
    by rewrite (is_newline_ascii c Hc).
  - by rewrite join_lines_String, <- split_lines_cons, IH.
Qed.

Lemma split_lines_app_newline l rest :
  no_newline l →
  JsString.split_lines (l ++ newline ++ rest) = l :: JsString.split_lines rest.
Proof.
  induction l as [|c l IH]; intros Hl; [done|].
  destruct Hl as [Hc Hl].
  change (String c l ++ ?x) with (String c (l ++ x)).
  rewrite split_lines_String, IH by done.
  destruct (JsString.is_newline c) eqn:Hn; [|done].
  by apply is_newline_spec in Hn.
Qed.

Lemma split_lines_one l :
  no_newline l → JsString.split_lines l = [l].
Proof.
  induction l as [|c l IH]; intros Hl; [done|].
  destruct Hl as [Hc Hl]. rewrite split_lines_String, IH by done.
  destruct (JsString.is_newline c) eqn:Hn; [|done].
  by apply is_newline_spec in Hn.
Qed.

Lemma split_join_lines ls :
  ls ≠ [] → Forall no_newline ls → JsString.split_lines (join_lines ls) = ls.
Proof.
  induction ls as [|l ls IH]; [done|]. intros _ [Hl Hls]%Forall_cons.
  destruct ls as [|l' ls]; [by apply split_lines_one|].
  rewrite join_lines_cons, split_lines_app_newline by done.
  by rewrite IH.
Qed.

(** [split_lines] gives the lines of the text, and nothing else does. *)
Lemma lines_of_split_lines content ls :
  lines_of content ls ↔ ls = JsString.split_lines content.
Proof.
  split.
  - intros (Hne & -> & Hls). symmetry. by apply split_join_lines.
  - intros ->. split_and!.
    + by rewrite split_lines_cons.
    + symmetry. apply join_split_lines.
    + apply split_lines_no_newline.
Qed.

(** *** The white space around a line *)

Lemma is_white_space_spec c :
  JsString.is_white_space c = true ↔ nat_of_ascii c ∈ white_space_codes.
Proof.
  unfold JsString.is_white_space, white_space_codes.
  rewrite !orb_true_iff, andb_true_iff, !Nat.leb_le, !Nat.eqb_eq.
  rewrite !elem_of_cons, elem_of_nil. lia.
Qed.

Lemma is_white_space_not c :
  JsString.is_white_space c = false ↔ nat_of_ascii c ∉ white_space_codes.
Proof.
  rewrite <- is_white_space_spec. by destruct (JsString.is_white_space c).
Qed.

Lemma trimStart_spec s :
  ∃ before, s = before ++ JsString.trimStart s ∧ all_white before ∧
            ∀ c, first_code (JsString.trimStart s) = Some c →
                 c ∉ white_space_codes.
Proof.
  induction s as [|c s (before & Hs & Hwhite & Hfirst)].
  - by exists "".
  - simpl. destruct (JsString.is_white_space c) eqn:Hc.
    + exists (String c before). split_and!; [|split|done].
      * change (String c before ++ ?x) with (String c (before ++ x)).
        by rewrite <- Hs.
      * by apply is_white_space_spec.
      * done.
    + exists "". split_and!; try done.
      intros c' [= <-]. by apply is_white_space_not.
Qed.

Lemma trimEnd_spec s :
  ∃ after, s = JsString.trimEnd s ++ after ∧ all_white after ∧
           ∀ c, last_code (JsString.trimEnd s) = Some c →
                c ∉ white_space_codes.
Proof.
  induction s as [|c s (after & Hs & Hwhite & Hlast)].
  - by exists "".
  - simpl.
    destruct (JsString.is_white_space c && JsString.is_empty (JsString.trimEnd s))
      eqn:Hcut.
    + apply andb_true_iff in Hcut as [Hc Hempty%is_empty_true].
      rewrite Hempty in Hs. change ("" ++ after) with after in Hs.
      exists (String c after). split_and!; [by rewrite Hs|split|done].
      * by apply is_white_space_spec.
      * done.
    + exists after. split_and!; [|done|].
      * change (String c ?t ++ after) with (String c (t ++ after)).
        by rewrite <- Hs.
      * intros c'. simpl.
        destruct (JsString.trimEnd s) as [|c0 t] eqn:Ht; [|by apply Hlast].
        intros [= <-]. apply is_white_space_not.
        by rewrite andb_true_r in Hcut.
Qed.

Lemma first_code_trimEnd s c :
  first_code s = Some c → c ∉ white_space_codes →
  first_code (JsString.trimEnd s) = Some c.
Proof.
  destruct s as [|c0 s]; [done|]. intros [= <-] Hc%is_white_space_not.
  simpl. by rewrite Hc.
Qed.

Lemma trimStart_white before s :
  all_white before → JsString.trimStart (before ++ s) = JsString.trimStart s.
Proof.
  induction before as [|c before IH]; [done|]. intros [Hc Hwhite].
  change (String c before ++ s) with (String c (before ++ s)). simpl.
  apply is_white_space_spec in Hc. rewrite Hc. by apply IH.
Qed.

Lemma trimStart_not_white s c :
  first_code s = Some c → c ∉ white_space_codes → JsString.trimStart s = s.
Proof.
  destruct s as [|c0 s]; [done|]. intros [= <-] Hc%is_white_space_not.
  simpl. by rewrite Hc.
Qed.

Lemma trimEnd_all_white s : all_white s → JsString.trimEnd s = "".
Proof.
  induction s as [|c s IH]; [done|]. intros [Hc%is_white_space_spec Hs].
  simpl. by rewrite IH, Hc.
Qed.

Lemma trimEnd_white t after c :
  last_code t = Some c → c ∉ white_space_codes → all_white after →
  JsString.trimEnd (t ++ after) = t.
Proof.
  intros Hlast Hc Hafter. induction t as [|c0 t IH]; [done|].
  change (String c0 t ++ after) with (String c0 (t ++ after)). simpl.
  destruct t as [|c1 t].
  - injection Hlast as <-. change ("" ++ after) with after.
    rewrite trimEnd_all_white by done. simpl.
    apply is_white_space_not in Hc. by rewrite Hc.
  - rewrite IH by done. simpl. by rewrite andb_false_r.
Qed.

(** A token of the file is a trimmed line of [split_lines] that is not
    empty and does not start with [#]. *)
Lemma manifest_token_spec content t :
  manifest_token content t ↔
  ∃ line, line ∈ JsString.split_lines content ∧ t = JsString.trim line ∧
          t ≠ "" ∧ JsString.startsWith_hash t = false.
Proof.
  split.
  - intros (ls & line & before & after & ->%lines_of_split_lines & Hline & ->
            & Hbefore & Hafter & (c & Hc & Hcw & Hhash) & (c' & Hc' & Hcw')).
    exists (before ++ t ++ after). split; [done|].
    assert (Htrim : JsString.trim (before ++ t ++ after) = t).
    { unfold JsString.trim. rewrite trimStart_white by done.
      rewrite (trimStart_not_white _ c); [by eapply trimEnd_white| |done].
      by destruct t. }
    rewrite Htrim. split_and!; try done.
    + by destruct t.
    + destruct t as [|c0 t]; [done|]. injection Hc as <-. simpl.
      by apply Nat.eqb_neq.
  - intros (line & Hline & -> & Hne & Hhash).
    destruct (trimStart_spec line) as (before & Hs & Hbefore & Hfirst).
    destruct (trimEnd_spec (JsString.trimStart line))
      as (after & Hs' & Hafter & Hlast).
    fold (JsString.trim line) in Hs', Hlast.
    exists (JsString.split_lines content), line, before, after.
    split_and!; try done.
    + by apply lines_of_split_lines.
    + by rewrite <- Hs', <- Hs.
    + destruct (JsString.trim line) as [|c t] eqn:Ht; [done|].
      exists (nat_of_ascii c). split_and!; try done.
      * destruct (JsString.trimStart line) as [|c0 s0] eqn:Hts; [done|].
        assert (Hc0 : nat_of_ascii c0 ∉ white_space_codes) by (by apply Hfirst).
        unfold JsString.trim in Ht. rewrite Hts in Ht.
        pose proof (first_code_trimEnd (String c0 s0) _ eq_refl Hc0) as H1.
        rewrite Ht in H1. injection H1 as ->. done.
      * simpl in Hhash. by apply Nat.eqb_neq in Hhash.
    + destruct (last_code (JsString.trim line)) as [c|] eqn:Hl.
      * exists c. split; [done|]. by apply Hlast.
      * destruct (JsString.trim line) as [|c t]; [done|].
        exfalso. clear -Hl. revert c Hl.
        induction t as [|c' t IH]; intros c Hl; [done|]. by apply (IH c').
Qed.

(** The rows of the join, one by one. *)
Lemma elem_of_joined folder d p :
  p ∈ joined folder d ↔
  ∃ r c, r ∈ ghost_revisions d ∧ c ∈ ghost_content d ∧
         r_content_id r = Some (c_id c) ∧ c_folder c = folder ∧
         p = mkPending (c_file c) (r_id r) (r_revision r) (r_created_on r)
               (r_created_by r).
Proof.
  unfold joined. rewrite list_elem_of_bind. split.
  - intros (r & Hp & Hr). apply list_elem_of_bind in Hp as (c & Hp & Hc).
    apply list_elem_of_filter in Hc as [[Hid Hf] Hc].
    apply list_elem_of_singleton in Hp. by exists r, c.
  - intros (r & c & Hr & Hc & Hid & Hf & ->). exists r. split; [|done].
    apply list_elem_of_bind. exists c. split; [by apply list_elem_of_singleton|].
    by apply list_elem_of_filter.
Qed.

Lemma elem_of_getPendingRevisions folder d p :
  p ∈ getPendingRevisions folder d ↔ p ∈ joined folder d.
Proof. unfold getPendingRevisions. by rewrite merge_sort_Permutation. Qed.



(** The two statements of the transaction of [deleteFile]. *)
Lemma delete_body_Ok flt id revision created_on d u d' :
  (_ ← stmt flt StTxWrite (λ d, Ok (tt, update_content id tombstone d));
   stmt flt StTxInsertRevision
     (λ d, Ok (tt, insert_revision (Some id) revision created_on d))) d
  = Ok (u, d') →
  d' = insert_revision (Some id) revision created_on
         (update_content id tombstone d).
Proof.
  unfold mbind, tx_bind, stmt, tx_fail.
  destruct (flt StTxWrite); [done|].
  destruct (flt StTxInsertRevision); congruence.
Qed.

(** ** The invariant is kept by every statement and every operation *)

Lemma NoDup_keys_upserted folder file content d :
  NoDup (keys d) → NoDup (keys (upserted folder file content d)).
Proof.
  intros Hnd. rewrite keys_upserted. case_decide as Hin; [done|].
  apply NoDup_app. split_and!; [done| |apply NoDup_singleton].
  by intros k Hk ->%list_elem_of_singleton.
Qed.

Lemma wf_database_upserted folder file content d :
  wf_database d → wf_database (upserted folder file content d).
Proof.
  intros (Hc & Hr & Hk). split_and!.
  - by apply wf_content_upserted.
  - unfold upserted. by destruct (head (select_content folder file d)).
  - by apply NoDup_keys_upserted.
Qed.

Lemma wf_database_insert_revision content_id revision created_on d :
  wf_database d → wf_database (insert_revision content_id revision created_on d).
Proof.
  intros (Hc & [Hnd Hlt] & Hk). split_and!; [done| |done].
  unfold wf_revisions, insert_revision. simpl. split.
  - rewrite fmap_app. apply NoDup_app. split_and!; [done| |apply NoDup_singleton].
    intros i (r & -> & Hr)%list_elem_of_fmap Heq%list_elem_of_singleton.
    specialize (Hlt r Hr). simpl in Heq. lia.
  - intros r [Hr| ->%list_elem_of_singleton]%elem_of_app; simpl; [|lia].
    specialize (Hlt r Hr). lia.
Qed.

Lemma wf_database_tombstone id d :
  wf_database d → wf_database (update_content id tombstone d).
Proof.
  intros ([Hnd Hlt] & Hr & Hk).
  assert (Hsame : ∀ (A : Type) (f : content_row → A),
            (∀ c, f (tombstone c) = f c) →
            f <$> ghost_content (update_content id tombstone d)
            = f <$> ghost_content d).
  { intros A f Hf. unfold update_content. simpl. rewrite <- list_fmap_compose.
    apply list_fmap_ext. intros i c _. simpl. by case_decide. }
  split_and!; [split| |].
  - by rewrite Hsame.
  - intros c' (c & -> & Hc)%list_elem_of_fmap. specialize (Hlt c Hc).
    by case_decide.
  - done.
  - by rewrite Hsame.
Qed.

Lemma NoDup_fmap_filter {A B} (f : A → B) (P : A → Prop)
    `{!∀ x, Decision (P x)} (l : list A) :
  NoDup (f <$> l) → NoDup (f <$> filter P l).
Proof.
  induction l as [|x l IH]; [done|].
  rewrite fmap_cons, NoDup_cons, filter_cons. intros [Hx Hl].
  case_decide; [|by apply IH].
  rewrite fmap_cons, NoDup_cons. split; [|by apply IH].
  intros (y & Hy & [_ Hin]%list_elem_of_filter)%list_elem_of_fmap.
  apply Hx. rewrite Hy. by apply list_elem_of_fmap_2.
Qed.

Lemma wf_database_delete_revisions ids d :
  wf_database d → wf_database (delete_revisions ids d).
Proof.
  intros (Hc & [Hnd Hlt] & Hk). split_and!; [done| |done].
  unfold wf_revisions, delete_revisions. simpl. split.
  - by apply NoDup_fmap_filter.
  - intros r [_ Hr]%list_elem_of_filter. by apply Hlt.
Qed.

Lemma wf_database_delete_content_not_in files folder d :
  wf_database d → wf_database (delete_content_not_in files folder d).
Proof.
  intros ([Hnd Hlt] & Hr & Hk). split_and!; [split|done|].
  - by apply NoDup_fmap_filter.
  - intros c [_ Hc]%list_elem_of_filter. by apply Hlt.
  - by apply NoDup_fmap_filter.
Qed.

Lemma wf_database_recordFiles path_join fs folderPath folder files err d :
  wf_database d →
  wf_database
    (foldl (λ acc file,
              match recordFile path_join fs folderPath folder file acc.2 with
              | Ok d' => (acc.1, d')
              | Err e => (Some (default e acc.1), acc.2)
              end) (err, d) files).2.
Proof.
  revert err d. induction files as [|f files IH]; intros err d Hwf; [done|].
  simpl. unfold recordFile at 2.
  destruct (readFileAsync fs (path_join folderPath f)) as [content|code].
  - rewrite upsert_no_fault. apply IH. by apply wf_database_upserted.
  - by apply IH.
Qed.

Lemma db_run_transaction w name body st :
  db (run_transaction w name body st).2 =
  match body (db st) with
  | Ok (_, d) => d
  | Err _ => db st
  end.
Proof.
  unfold run_transaction, settle_transaction, after_commit.
  destruct (body (db st)) as [[u d]|e]; [|done].
  by destruct (fault w StRefresh).
Qed.

Lemma like_any s : JsString.like "%" s = true.
Proof. induction s as [|a s IH]; [done|]. simpl in *. by rewrite IH. Qed.

Lemma all_live_upserted folder file content d :
  all_live folder d → all_live folder (upserted folder file content d).
Proof.
  intros Hlive c'. unfold upserted.
  destruct (head (select_content folder file d)) as [row|].
  - unfold update_content. simpl.
    intros (c & -> & Hc)%list_elem_of_fmap. specialize (Hlive c Hc).
    by case_decide.
  - unfold insert_content. simpl.
    intros [Hc| ->%list_elem_of_singleton]%elem_of_app; [by apply Hlive|done].
Qed.

Lemma all_live_recorded path_join fs folderPath folder files d :
  all_live folder d →
  all_live folder (recorded path_join fs folderPath folder files d).
Proof.
  revert d. induction files as [|f files IH]; intros d Hlive; [done|].
  rewrite recorded_cons. by apply IH, all_live_upserted.
Qed.

(** ** Known tokens *)


Lemma filter_nil_weaken {A} (P Q : A → Prop) `{!∀ x, Decision (P x)}
    `{!∀ x, Decision (Q x)} (l : list A) :
  (∀ x, Q x → P x) → filter P l = [] → filter Q l = [].
Proof.
  intros HQP HP. apply elem_of_nil_inv. intros x [HQ Hx]%list_elem_of_filter.
  assert (Hin : x ∈ filter P l) by (apply list_elem_of_filter; auto).
  rewrite HP in Hin. by apply elem_of_nil in Hin.
Qed.




(** A token of 36 characters names no inherited property. *)
Lemma uuid_not_inherited t :
  String.length t = 36 → t ∉ Object_prototype_names.
Proof.
  intros Hlen Hin. unfold Object_prototype_names in Hin.
  repeat (apply elem_of_cons in Hin as [->|Hin]; [by vm_compute in Hlen|]).
  by apply elem_of_nil in Hin.
Qed.

(** ** Checking the invariants on a given state *)

Lemma unique_keys_NoDup d : NoDup (keys d) → unique_keys d.
Proof.
  intros Hnd c1 c2 H1 H2 Hf Hfile.
  apply (NoDup_fmap_elem_eq (λ c, (c_folder c, c_file c)) (ghost_content d));
    [done..|]. by rewrite Hf, Hfile.
Qed.

Lemma wf_content_Forall d :
  NoDup (c_id <$> ghost_content d) →
  Forall (λ c, (c_id c < next_content_id d)%positive) (ghost_content d) →
  wf_content d.
Proof. intros Hnd Hlt. split; [done|]. by apply Forall_forall. Qed.

Lemma fresh_token_Forall t st :
  Forall (λ r, r_revision r ≠ t) (ghost_revisions (db st)) →
  map_Forall (λ _ l, Forall (λ p, p_revision p ≠ t) l)
             (pendingRevisionsByFolder st) →
  fresh_token t st.
Proof.
  intros Hlog Hmem. split.
  - by apply Forall_forall.
  - intros g l p Hl Hp. specialize (Hmem g l Hl). simpl in Hmem.
    by eapply Forall_forall in Hmem.
Qed.

Lemma wf_database_empty : wf_database (db empty_state).
Proof.
  split_and!; [split|split|]; try constructor;
    by intros ? ?%elem_of_nil.
Qed.

Lemma wf_database_unique_keys d : wf_database d → unique_keys d.
Proof. intros (_ & _ & Hk). by apply unique_keys_NoDup. Qed.

Section Properties.

Variable normalizeFolder : string → string * string.
Variable path_join : string → string → string.

Lemma recordRevision_Fulfilled w rootFolder file newContent st st' :
  recordRevision normalizeFolder w rootFolder file newContent st
  = (Fulfilled tt, st') →
  let folder := (normalizeFolder rootFolder).2 in
  (stored_content folder file (db st) = Some newContent ∧ st' = st) ∨
  (stored_content folder file (db st) ≠ Some newContent ∧
   db st' = insert_revision (c_id <$> head (select_content folder file (db st)))
              (uuid_v4 w) (now w) (upserted folder file newContent (db st))).
Proof.
  unfold recordRevision, stored_content. simpl.
  destruct (fault w StSelect); [done|].
  case_decide as Hsame.
  - intros [= <-]. by left.
  - intros (u & d & Hbody & -> & _)%run_transaction_Fulfilled.
    apply record_body_Ok in Hbody. right. split; [congruence|done].
Qed.

Lemma recordRevision_stores w rootFolder file newContent st st' :
  recordRevision normalizeFolder w rootFolder file newContent st
  = (Fulfilled tt, st') →
  stored_content (normalizeFolder rootFolder).2 file (db st') = Some newContent.
Proof.
  intros [[H ->]|[_ H]]%recordRevision_Fulfilled; [done|].
  destruct (head_select_upserted (normalizeFolder rootFolder).2 file
              newContent (db st)) as (row & Hrow & Hc).
  unfold stored_content, select_content in *. rewrite H. simpl.
  by rewrite Hrow.
Qed.

Lemma recordRevision_same w rootFolder file newContent st :
  fault w StSelect = None →
  stored_content (normalizeFolder rootFolder).2 file (db st) = Some newContent →
  recordRevision normalizeFolder w rootFolder file newContent st
  = (Fulfilled tt, st).
Proof.
  unfold recordRevision, stored_content. intros -> ->. by rewrite decide_True.
Qed.

(** C3. Whenever [recordRevision(rootFolder, file, newContent)] is
    fulfilled, [readFile(rootFolder, file)] on the state it leaves is
    fulfilled with exactly [newContent]. *)
Theorem recordRevision_then_readFile w rootFolder file newContent st st' :
  recordRevision normalizeFolder w rootFolder file newContent st
  = (Fulfilled tt, st') →
  readFile normalizeFolder rootFolder file st' = Fulfilled (Some newContent).
Proof.
  intros H%recordRevision_stores. unfold readFile, stored_content in *.
  destruct (head _) as [row|]; [|done]. simpl in H. by rewrite H.
Qed.

(** C4. When the content stored for the file equals the new content,
    [recordRevision] changes nothing at all; so of two calls in a row with
    the same content the second is such a call, and the two together append
    one row to [ghost_revisions] (none when the first one already found
    that content). *)
Theorem recordRevision_idempotent w1 w2 rootFolder file newContent st :
  fault w1 StSelect = None → fault w2 StSelect = None →
  let folder := (normalizeFolder rootFolder).2 in
  (stored_content folder file (db st) = Some newContent →
   recordRevision normalizeFolder w1 rootFolder file newContent st
   = (Fulfilled tt, st)) ∧
  (∀ st1,
     recordRevision normalizeFolder w1 rootFolder file newContent st
     = (Fulfilled tt, st1) →
     recordRevision normalizeFolder w2 rootFolder file newContent st1
     = (Fulfilled tt, st1) ∧
     ghost_revisions (db st1) =
       if decide (stored_content folder file (db st) = Some newContent)
       then ghost_revisions (db st)
       else (ghost_revisions (db st) ++
              [mkRevision (next_revision_id (db st))
                 (c_id <$> head (select_content folder file (db st)))
                 (uuid_v4 w1) (now w1) "admin"])%list).
Proof.
  intros Hw1 Hw2 folder. split; [by apply recordRevision_same|].
  intros st1 H. split.
  - apply recordRevision_same; [done|]. by eapply recordRevision_stores.
  - apply recordRevision_Fulfilled in H as [[H ->]|[Hne ->]].
    + by rewrite decide_True.
    + rewrite decide_False by done. unfold upserted, folder.
      by destruct (head (select_content _ file (db st))).
Qed.

(** C6. [deleteFile] on a file that has no row, or only tombstoned rows, is
    rejected with the "can't delete file" error and leaves the whole state,
    [ghost_revisions] included, as it was. *)
Theorem deleteFile_not_found w rootFolder file st :
  fault w StSelect = None →
  (∀ c, c ∈ ghost_content (db st) →
        c_folder c = (normalizeFolder rootFolder).2 → c_file c = file →
        c_deleted c = true) →
  deleteFile normalizeFolder w rootFolder file st
  = (Rejected (CantDeleteFile file (normalizeFolder rootFolder).2), st) ∧
  ghost_revisions (db (deleteFile normalizeFolder w rootFolder file st).2)
  = ghost_revisions (db st).
Proof.
  intros Hw Hdead. unfold deleteFile. rewrite Hw.
  destruct (head (select_live _ file (db st))) as [row|] eqn:Hrow; [|done].
  apply head_elem_of in Hrow. unfold select_live in Hrow.
  apply list_elem_of_filter in Hrow as [(Hf & Hfile & Hlive) Hin].
  specialize (Hdead row Hin Hf Hfile). congruence.
Qed.

Lemma deleteFile_Fulfilled w rootFolder file st st' :
  deleteFile normalizeFolder w rootFolder file st = (Fulfilled tt, st') →
  ∃ row, head (select_live (normalizeFolder rootFolder).2 file (db st)) = Some row ∧
         db st' = insert_revision (Some (c_id row)) (uuid_v4 w) (now w)
                    (update_content (c_id row) tombstone (db st)).
Proof.
  unfold deleteFile. destruct (fault w StSelect); [done|].
  destruct (head (select_live _ file (db st))) as [row|]; [|done].
  intros (u & d & Hbody & -> & _)%run_transaction_Fulfilled.
  apply delete_body_Ok in Hbody. by exists row.
Qed.

(** C7. After a fulfilled [deleteFile(rootFolder, file)], on a table where
    [(folder, file)] identifies one row, [directoryListing] of the folder
    does not contain [file], whatever the ending pattern, while
    [ghost_content] still holds the row of the file, with [deleted] true and
    a null content. *)
Theorem deleteFile_hides_file w rootFolder file fileEndingPattern st st' :
  unique_keys (db st) →
  deleteFile normalizeFolder w rootFolder file st = (Fulfilled tt, st') →
  (file ∉ directoryListing normalizeFolder rootFolder fileEndingPattern st') ∧
  ∃ row, row ∈ ghost_content (db st') ∧
         c_folder row = (normalizeFolder rootFolder).2 ∧ c_file row = file ∧
         c_deleted row = true ∧ c_content row = None.
Proof.
  intros Huniq (row & Hrow & Hdb)%deleteFile_Fulfilled.
  apply head_elem_of in Hrow. unfold select_live in Hrow.
  apply list_elem_of_filter in Hrow as [(Hfolder & Hfile & _) Hin].
  split.
  - unfold directoryListing. rewrite Hdb. simpl.
    intros (c' & Hf' & Hc')%list_elem_of_fmap.
    apply list_elem_of_filter in Hc' as [[[Hfolder' Hlive] _] Hc'].
    apply list_elem_of_fmap in Hc' as (c & -> & Hc).
    case_decide as Hid; [done|].
    apply Hid. f_equal. apply Huniq; congruence.
  - exists (tombstone row). rewrite Hdb. simpl. split; [|done].
    apply list_elem_of_fmap. exists row. by rewrite decide_True.
Qed.


(** C10. [recordRevision] on a file without a row appends a revision whose
    [content_id] is null. A pending row always comes from a revision whose
    [content_id] is not null, so with a fresh token that revision is found
    neither by [getPendingRevisions], for any folder, nor in [getPending],
    nor among the revisions of [getPendingWithContent]. *)
Theorem recordRevision_new_file_never_pending w rootFolder file newContent st st' :
  let folder := (normalizeFolder rootFolder).2 in
  select_content folder file (db st) = [] →
  fresh_token (uuid_v4 w) st →
  recordRevision normalizeFolder w rootFolder file newContent st
  = (Fulfilled tt, st') →
  ghost_revisions (db st') =
    (ghost_revisions (db st) ++
       [mkRevision (next_revision_id (db st)) None (uuid_v4 w) (now w) "admin"])%list ∧
  (∀ d g p, p ∈ getPendingRevisions g d →
     ∃ r, r ∈ ghost_revisions d ∧ is_Some (r_content_id r) ∧
          r_id r = p_id p ∧ r_revision r = p_revision p) ∧
  (∀ g p, p ∈ getPendingRevisions g (db st') → p_revision p ≠ uuid_v4 w) ∧
  (∀ g l p, getPending st' !! g = Some l → p ∈ l → p_revision p ≠ uuid_v4 w) ∧
  (∀ g info, getPendingWithContent st' !! g = Some info →
     uuid_v4 w ∉ revisions info).
Proof.
  intros folder Hnone [Hfresh_log Hfresh_mem] Hcall. subst folder.
  assert (Hjoin : ∀ d g p, p ∈ getPendingRevisions g d →
            ∃ r, r ∈ ghost_revisions d ∧ is_Some (r_content_id r) ∧
                 r_id r = p_id p ∧ r_revision r = p_revision p).
  { intros d g p (r & c & Hr & _ & Hid & _ & ->)%elem_of_getPendingRevisions
                                                 %elem_of_joined.
    exists r. by rewrite Hid. }
  assert (Hlog : ghost_revisions (db st') =
    (ghost_revisions (db st) ++
       [mkRevision (next_revision_id (db st)) None (uuid_v4 w) (now w) "admin"])%list).
  { apply recordRevision_Fulfilled in Hcall as [[H _]|[_ ->]].
    - unfold stored_content in H. by rewrite Hnone in H.
    - rewrite Hnone. simpl. unfold upserted. by rewrite Hnone. }
  assert (Hnew : ∀ g p, p ∈ getPendingRevisions g (db st') →
                        p_revision p ≠ uuid_v4 w).
  { intros g p (r & Hr & [i Hi] & _ & <-)%Hjoin.
    rewrite Hlog in Hr. apply elem_of_app in Hr as [Hr|Hr%list_elem_of_singleton].
    - by apply Hfresh_log.
    - subst r. done. }
  assert (Hmem : ∀ g l p, getPending st' !! g = Some l → p ∈ l →
                          p_revision p ≠ uuid_v4 w).
  { unfold recordRevision in Hcall. destruct (fault w StSelect); [done|].
    case_decide.
    { injection Hcall as <-. apply Hfresh_mem. }
    unfold run_transaction, settle_transaction, after_commit in Hcall.
    match type of Hcall with
    | context [match ?b with Ok _ => _ | Err _ => _ end] => destruct b as [[u d]|]
    end; [|done].
    destruct (fault w StRefresh).
    - injection Hcall as <-. apply Hfresh_mem.
    - intros g l p Hl Hp. unfold getPending in Hl.
      destruct (decide (g = (normalizeFolder rootFolder).2)) as [->|Hg].
      + assert (l = getPendingRevisions (normalizeFolder rootFolder).2 (db st'))
          as ->.
        { injection Hcall as <-. unfold updatePendingForFolder in Hl.
          simpl in Hl. rewrite lookup_insert_eq in Hl. by injection Hl as <-. }
        by eapply Hnew.
      + injection Hcall as <-. simpl in Hl.
        rewrite lookup_insert_ne in Hl by done. by eapply Hfresh_mem. }
  split_and!; try done.
  intros g info. unfold getPendingWithContent. rewrite map_lookup_imap.
  destruct (pendingRevisionsByFolder st' !! g) as [l|] eqn:Hl; [|done].
  simpl. intros [= <-]. simpl.
  intros (p & Hp & Hin)%list_elem_of_fmap. by eapply Hmem.
Qed.

(** C9. The known revisions are read from the revisions file of the
    folder. When the file is there, its content is parsed line by line, one
    token per line: the keys of [knownRevisions] are the tokens of the
    file, what is left of a line without the white space around it, a line
    that is blank or starts with [#] giving none (the key [__proto__]
    cannot be set); so a token counts as known when it is a token of the
    file, or names a property every object has. When the read fails with
    ENOENT, registration goes on with no key at all; any other failure of
    the read rejects [addRootFolder], the database and the pending
    revisions being left alone. *)
Theorem addRootFolder_known_revisions fs rootFolder filesGlob st :
  let folderPath := (normalizeFolder rootFolder).1 in
  let folder := (normalizeFolder rootFolder).2 in
  let registering := track folder (log (DebugAdding folder) st) in
  match readFileAsync fs (path_join folderPath REVISIONS_FILE_NAME) with
  | ReadOk content =>
      ∃ known,
        addRootFolder normalizeFolder path_join fs rootFolder filesGlob st
        = reconcile path_join fs filesGlob folderPath folder known registering ∧
        (∀ t, t ∈ known ↔ manifest_token content t ∧ t ≠ "__proto__") ∧
        (∀ t, is_known known t ↔
              manifest_token content t ∨ t ∈ Object_prototype_names)
  | ReadErr code =>
      if decide (code = "ENOENT") then
        addRootFolder normalizeFolder path_join fs rootFolder filesGlob st
        = reconcile path_join fs filesGlob folderPath folder ∅ registering
      else
        addRootFolder normalizeFolder path_join fs rootFolder filesGlob st
        = (Rejected (FsError code), registering) ∧
        db registering = db st ∧
        pendingRevisionsByFolder registering = pendingRevisionsByFolder st
  end.
Proof.
  intros folderPath folder registering.
  unfold addRootFolder, readKnownRevisions. fold folderPath folder registering.
  destruct (readFileAsync fs _) as [content|code].
  - assert (Hown : ∀ t, t ∈ parseRevisions content ↔
                        manifest_token content t ∧ t ≠ "__proto__").
    { intros t. by rewrite elem_of_parseRevisions, manifest_token_spec. }
    exists (parseRevisions content). split_and!; [done|done|].
    intros t. unfold is_known. rewrite Hown. split; [tauto|].
    intros [Ht|Ht]; [|by right].
    destruct (decide (t = "__proto__")) as [->|Hne]; [|by left].
    right. unfold Object_prototype_names. set_unfold. tauto.
  - case_decide; [done|]. done.
Qed.


(** C2. With no known revision and no revision of the folder in
    [ghost_revisions], and every matched file readable, [addRootFolder] is
    fulfilled and leaves [ghost_content] with a row of the folder for
    exactly the files the glob matched: each matched file holds the content
    read from the file system, no row of the folder is left for any other
    file, and [ghost_revisions] is what it was. When no row of the folder
    was a tombstone, [directoryListing] of the folder then lists exactly the
    matched files. *)
Theorem addRootFolder_resync fs rootFolder filesGlob st :
  let folderPath := (normalizeFolder rootFolder).1 in
  let folder := (normalizeFolder rootFolder).2 in
  let matched := globAsync fs filesGlob folderPath in
  readKnownRevisions path_join fs folderPath = Ok ∅ →
  getPendingRevisions folder (db st) = [] →
  wf_content (db st) →
  (∀ f, f ∈ matched →
        ∃ c, readFileAsync fs (path_join folderPath f) = ReadOk c) →
  ∃ st',
    addRootFolder normalizeFolder path_join fs rootFolder filesGlob st
    = (Fulfilled tt, st') ∧
    (∀ f, (∃ c, c ∈ ghost_content (db st') ∧
                c_folder c = folder ∧ c_file c = f) ↔ f ∈ matched) ∧
    (∀ f content, f ∈ matched →
       readFileAsync fs (path_join folderPath f) = ReadOk content →
       stored_content folder f (db st') = Some content) ∧
    (all_live folder (db st) →
     ∀ f, f ∈ directoryListing normalizeFolder rootFolder "" st' ↔ f ∈ matched) ∧
    ghost_revisions (db st') = ghost_revisions (db st) ∧
    pendingRevisionsByFolder st' = pendingRevisionsByFolder st.
Proof.
  intros folderPath folder matched Hknown Hnone Hwf Hread.
  unfold addRootFolder. fold folderPath folder. rewrite Hknown.
  unfold reconcile. simpl db. rewrite Hnone, !filter_nil.
  fold matched. rewrite (recordFiles_readable _ _ _ _ _ _ Hread).
  assert (elem_of_keys_recorded_matched : ∀ f,
    (∃ c, c ∈ ghost_content
                (delete_content_not_in matched folder
                   (recorded path_join fs folderPath folder matched (db st))) ∧
          c_folder c = folder ∧ c_file c = f) ↔ f ∈ matched).
  { intros f. rewrite <- elem_of_keys, elem_of_keys_delete_not_in,
      elem_of_keys_recorded. split; [by intros [_ ?]|].
    intros Hf. split; [|done]. right. by exists f. }
  eexists. split; [done|]. cbn [db with_db]. split_and!; try done.
  - intros f content Hf Hc. unfold stored_content.
    rewrite select_content_delete_not_in by done.
    etrans;
      [exact (stored_recorded path_join fs folderPath folder matched f
                (db st) Hwf Hf)|].
    unfold file_content. by rewrite Hc.
  - intros Hlive f. unfold directoryListing. fold folder. cbn [db with_db].
    rewrite <- (elem_of_keys_recorded_matched f), list_elem_of_fmap.
    apply (all_live_recorded path_join fs folderPath folder matched) in Hlive.
    split.
    + intros (c & -> & [[[Hf _] _] Hc]%list_elem_of_filter). by exists c.
    + intros (c & Hc & Hf & <-). exists c. split; [done|].
      apply list_elem_of_filter. split; [|done]. split_and!; try done.
      * apply Hlive; [|done]. by apply list_elem_of_filter in Hc as [_ Hc].
      * apply like_any.
  - apply revisions_recorded.
Qed.

(** X16. The invariant of the database holds on the empty database and is kept
    by the three operations that write, however they end. *)
Theorem operations_keep_invariant w fs rootFolder filesGlob file newContent st :
  wf_database (db st) →
  wf_database (db (recordRevision normalizeFolder w rootFolder file newContent st).2) ∧
  wf_database (db (deleteFile normalizeFolder w rootFolder file st).2) ∧
  wf_database (db (addRootFolder normalizeFolder path_join fs rootFolder filesGlob st).2).
Proof.
  intros Hwf. split_and!.
  - unfold recordRevision. destruct (fault w StSelect); [done|].
    case_decide; [done|]. rewrite db_run_transaction.
    match goal with
    | |- context [match ?b with Ok _ => _ | Err _ => _ end] =>
        destruct b as [[u d]|] eqn:Hbody; [|done]
    end.
    apply record_body_Ok in Hbody as ->.
    by apply wf_database_insert_revision, wf_database_upserted.
  - unfold deleteFile. destruct (fault w StSelect); [done|].
    destruct (head (select_live _ file (db st))) as [row|]; [|done].
    rewrite db_run_transaction.
    match goal with
    | |- context [match ?b with Ok _ => _ | Err _ => _ end] =>
        destruct b as [[u d]|] eqn:Hbody; [|done]
    end.
    apply delete_body_Ok in Hbody as ->.
    by apply wf_database_insert_revision, wf_database_tombstone.
  - unfold addRootFolder.
    destruct (readKnownRevisions path_join fs _) as [known|]; [|done].
    unfold reconcile.
    set (folder := (normalizeFolder rootFolder).2).
    set (folderPath := (normalizeFolder rootFolder).1).
    set (st0 := track folder (log (DebugAdding folder) st)).
    set (dbRevisions := getPendingRevisions folder (db st0)).
    set (toDelete := filter (λ p, is_known known (p_revision p)) dbRevisions).
    set (st1 := match toDelete with [] => st0 | _ :: _ => _ end).
    assert (Hwf1 : wf_database (db st1)).
    { unfold st1. destruct toDelete; [done|].
      by apply wf_database_delete_revisions. }
    destruct (filter (λ p, ¬ is_known known (p_revision p)) dbRevisions);
      [|done].
    pose proof (wf_database_recordFiles path_join fs folderPath folder
                  (globAsync fs filesGlob folderPath) None (db st1) Hwf1)
      as Hwf2.
    unfold recordFiles. cbn [db log] in *.
    destruct (foldl _ _ _) as [[e|] d]; [done|].
    by apply wf_database_delete_content_not_in.
Qed.

End Properties.

(** C8, on the sample project. After [deleteFile('flows', 'b.json')] the row
    of [b.json] is a tombstone, and [readFile('flows', 'b.json')] is
    fulfilled, with null, instead of being rejected; only a file without a
    row makes [readFile] fail. *)
Theorem readFile_tombstone_fulfilled :
  select_content "flows" "b.json" (db deleted_state)
  = [mkContent 2 "flows" "b.json" None true] ∧
  readFile sample_normalizeFolder "flows" "b.json" deleted_state
  = Fulfilled None ∧
  readFile sample_normalizeFolder "flows" "c.json" deleted_state
  = Rejected TypeErrorUndefined.
Proof. by vm_compute. Qed.


(** ** The theorems at work on the sample project *)

Lemma recordRevision_then_readFile_witness :
  recordRevision sample_normalizeFolder (mkWorld "uuid-1" 10 no_fault)
    "flows" "a.json" "v2" registered_state = (Fulfilled tt, revised_state) ∧
  readFile sample_normalizeFolder "flows" "a.json" revised_state
  = Fulfilled (Some "v2").
Proof.
  assert (H : recordRevision sample_normalizeFolder (mkWorld "uuid-1" 10 no_fault)
                "flows" "a.json" "v2" registered_state
              = (Fulfilled tt, revised_state)) by (vm_compute; reflexivity).
  split; [exact H|].
  exact (recordRevision_then_readFile sample_normalizeFolder _ _ _ _ _ _ H).
Defined.

Lemma recordRevision_idempotent_witness :
  recordRevision sample_normalizeFolder (mkWorld "uuid-4" 13 no_fault)
    "flows" "a.json" "v2" revised_state = (Fulfilled tt, revised_state) ∧
  length (ghost_revisions (db revised_state))
  = S (length (ghost_revisions (db registered_state))).
Proof.
  pose proof (recordRevision_idempotent sample_normalizeFolder
                (mkWorld "uuid-1" 10 no_fault) (mkWorld "uuid-4" 13 no_fault)
                "flows" "a.json" "v2" registered_state eq_refl eq_refl)
    as [_ Htwice].
  destruct (Htwice revised_state) as [Hsecond Hlog];
    [vm_compute; reflexivity|].
  split; [exact Hsecond|]. rewrite Hlog. vm_compute. reflexivity.
Defined.

Lemma deleteFile_not_found_witness :
  deleteFile sample_normalizeFolder (mkWorld "uuid-5" 14 no_fault)
    "flows" "b.json" deleted_state
  = (Rejected (CantDeleteFile "b.json" "flows"), deleted_state).
Proof.
  refine (proj1 (deleteFile_not_found sample_normalizeFolder
                   (mkWorld "uuid-5" 14 no_fault) "flows" "b.json"
                   deleted_state eq_refl _)).
  apply (proj1 (Forall_forall
                  (λ c, c_folder c = "flows" → c_file c = "b.json" →
                        c_deleted c = true)
                  (ghost_content (db deleted_state)))).
  vm_compute.
  repeat (apply Forall_cons; split; [intros; congruence|]). constructor.
Defined.

Lemma deleteFile_hides_file_witness :
  unique_keys (db revised_state) ∧
  "b.json" ∉ directoryListing sample_normalizeFolder "flows" ".json" deleted_state.
Proof.
  assert (Hu : unique_keys (db revised_state)).
  { apply unique_keys_NoDup. apply (bool_decide_unpack _). vm_compute. exact I. }
  split; [exact Hu|].
  apply (deleteFile_hides_file sample_normalizeFolder
           (mkWorld "uuid-2" 11 no_fault) "flows" "b.json" ".json"
           revised_state deleted_state Hu).
  vm_compute. reflexivity.
Defined.


Lemma recordRevision_new_file_never_pending_witness :
  fresh_token "uuid-3" deleted_state ∧
  ∀ g info,
    getPendingWithContent
      (recordRevision sample_normalizeFolder (mkWorld "uuid-3" 12 no_fault)
         "flows" "new.json" "N" deleted_state).2 !! g = Some info →
    "uuid-3" ∉ revisions info.
Proof.
  assert (Hfresh : fresh_token "uuid-3" deleted_state).
  { apply fresh_token_Forall; apply (bool_decide_unpack _); vm_compute; exact I. }
  split; [exact Hfresh|].
  eapply (recordRevision_new_file_never_pending sample_normalizeFolder
            (mkWorld "uuid-3" 12 no_fault) "flows" "new.json" "N"
            deleted_state).
  - vm_compute. reflexivity.
  - exact Hfresh.
  - vm_compute. reflexivity.
Defined.


Lemma addRootFolder_resync_witness :
  ∃ st',
    addRootFolder sample_normalizeFolder sample_path_join sample_fs
      "flows" "**/*.json" empty_state = (Fulfilled tt, st') ∧
    stored_content "flows" "a.json" (db st') = Some "A" ∧
    stored_content "flows" "b.json" (db st') = Some "B".
Proof.
  destruct (addRootFolder_resync sample_normalizeFolder sample_path_join
              sample_fs "flows" "**/*.json" empty_state)
    as (st' & Hcall & _ & Hstored & _).
  - vm_compute. reflexivity.
  - reflexivity.
  - split; [constructor|]. intros c Hc. by apply elem_of_nil in Hc.
  - intros f Hf. vm_compute in Hf.
    apply elem_of_cons in Hf as [->|Hf]; [by eexists|].
    apply elem_of_cons in Hf as [->|Hf]; [by eexists|].
    by apply elem_of_nil in Hf.
  - exists st'. split; [exact Hcall|]. split.
    + apply Hstored; [vm_compute; left|reflexivity].
    + apply Hstored; [vm_compute; right; left|reflexivity].
Defined.

(** ** More lemmas on the statements *)

Lemma upsert_succeeds flt folder file content d :
  flt StTxSelect = None → flt StTxWrite = None →
  upsert flt folder file content d = Ok (tt, upserted folder file content d).
Proof.
  intros Hs Hw. unfold upsert, upserted, mbind, tx_bind, stmt.
  rewrite Hs. destruct (head (select_content folder file d)); by rewrite Hw.
Qed.

(** An update by the id of a row leaves the rows of every other key alone. *)
Lemma select_content_update_other folder file f row d :
  NoDup (c_id <$> ghost_content d) → row ∈ ghost_content d →
  (c_folder row, c_file row) ≠ (folder, file) →
  (∀ c, c_folder (f c) = c_folder c ∧ c_file (f c) = c_file c) →
  select_content folder file (update_content (c_id row) f d)
  = select_content folder file d.
Proof.
  intros Hnd Hrow Hne Hf. rewrite select_content_update by done.
  rewrite <- (list_fmap_id (select_content folder file d)) at 2.
  apply list_fmap_ext. intros i c Hc%list_elem_of_lookup_2. simpl.
  apply list_elem_of_filter in Hc as [[Hcf Hcfile] Hc].
  case_decide as Hid; [|done]. exfalso. apply Hne.
  rewrite <- Hcf, <- Hcfile.
  by rewrite (NoDup_fmap_elem_eq c_id (ghost_content d) c row Hnd Hc Hrow Hid).
Qed.

Lemma select_upserted_other_key folder file folder' file' content d :
  wf_content d → (folder, file) ≠ (folder', file') →
  select_content folder' file' (upserted folder file content d)
  = select_content folder' file' d.
Proof.
  intros [Hnd _] Hne. unfold upserted.
  destruct (head (select_content folder file d)) as [row|] eqn:Hrow.
  - apply head_select_Some in Hrow as (Hin & Hf & Hfile).
    apply select_content_update_other; try done. by rewrite Hf, Hfile.
  - unfold select_content, insert_content. simpl.
    rewrite filter_app, filter_cons. simpl.
    rewrite decide_False by (intros [-> ->]; by apply Hne).
    by rewrite filter_nil, app_nil_r.
Qed.

Lemma select_content_insert_revision folder file content_id revision created_on d :
  select_content folder file (insert_revision content_id revision created_on d)
  = select_content folder file d.
Proof. done. Qed.

Lemma select_live_update id f folder file d :
  (∀ c, c_folder (f c) = c_folder c ∧ c_file (f c) = c_file c ∧
        c_deleted (f c) = c_deleted c) →
  select_live folder file (update_content id f d) =
  (λ c, if decide (c_id c = id) then f c else c) <$> select_live folder file d.
Proof.
  intros Hf. unfold select_live, update_content. simpl.
  apply filter_fmap_commute. intros c. case_decide; [|done].
  destruct (Hf c) as (-> & -> & ->). done.
Qed.

(** Once the row of a file is a tombstone, and keys are unique, the file has
    no live row. *)
Lemma select_live_tombstoned folder file row d :
  unique_keys d →
  head (select_live folder file d) = Some row →
  select_live folder file (update_content (c_id row) tombstone d) = [].
Proof.
  intros Huniq Hrow%head_elem_of.
  apply list_elem_of_filter in Hrow as [(Hf & Hfile & _) Hrow].
  apply elem_of_nil_inv. intros c' Hc'.
  apply list_elem_of_filter in Hc' as [(Hf' & Hfile' & Hlive) Hc'].
  unfold update_content in Hc'. simpl in Hc'.
  apply list_elem_of_fmap in Hc' as (c & -> & Hc).
  case_decide as Hid; [done|].
  apply Hid. f_equal. apply Huniq; congruence.
Qed.

Lemma select_live_upserted folder file content d :
  select_content folder file d ≠ [] → select_live folder file d = [] →
  select_live folder file (upserted folder file content d) = [].
Proof.
  intros Hrow Hlive. unfold upserted.
  destruct (head (select_content folder file d)) as [row|] eqn:Hhead.
  - rewrite select_live_update by done. by rewrite Hlive.
  - by apply head_filter_None in Hhead.
Qed.

Lemma getPendingWithContent_lookup st g :
  getPendingWithContent st !! g =
  (λ l, getPendingWithContentForFolder (db st) l g)
    <$> pendingRevisionsByFolder st !! g.
Proof.
  unfold getPendingWithContent. rewrite map_lookup_imap.
  by destruct (pendingRevisionsByFolder st !! g).
Qed.

Lemma elem_of_files d l g fr :
  fr ∈ files (getPendingWithContentForFolder d l g) ↔
  ∃ c, c ∈ ghost_content d ∧ c_folder c = g ∧ c_file c ∈ p_file <$> l ∧
       fr = mkFile (c_file c) (c_content c) (c_deleted c).
Proof.
  unfold getPendingWithContentForFolder. simpl.
  rewrite list_elem_of_fmap. split.
  - intros (c & -> & [[Hfile Hf] Hc]%list_elem_of_filter).
    rewrite elem_of_remove_dups in Hfile. by exists c.
  - intros (c & Hc & Hf & Hfile & ->). exists c. split; [done|].
    apply list_elem_of_filter. split; [|done].
    split; [by apply elem_of_remove_dups|done].
Qed.

Lemma pending_run_transaction w name body st g :
  g ≠ name →
  pendingRevisionsByFolder (run_transaction w name body st).2 !! g
  = pendingRevisionsByFolder st !! g.
Proof.
  intros Hg. unfold run_transaction, settle_transaction, after_commit.
  destruct (body (db st)) as [[u d]|e]; [|done].
  destruct (fault w StRefresh); [done|]. simpl.
  by rewrite lookup_insert_ne.
Qed.

Lemma NoDup_fmap_coarser {A B C} (f : A → B) (g : A → C) (l : list A) :
  NoDup (f <$> l) →
  (∀ x y, x ∈ l → y ∈ l → g x = g y → f x = f y) →
  NoDup (g <$> l).
Proof.
  induction l as [|x l IH]; [constructor|].
  rewrite !fmap_cons, !NoDup_cons. intros [Hx Hl] Hfg. split.
  - intros (y & Hy & Hin)%list_elem_of_fmap. apply Hx.
    rewrite (Hfg x y); [by apply list_elem_of_fmap_2|left|by right|done].
  - apply IH; [done|]. intros y z Hy Hz. apply Hfg; by right.
Qed.

Lemma select_live_subseteq folder file d c :
  c ∈ select_live folder file d → c ∈ select_content folder file d.
Proof.
  intros [(Hf & Hfile & _) Hc]%list_elem_of_filter.
  by apply list_elem_of_filter.
Qed.

Lemma record_body_succeeds flt folder file content id revision created_on d :
  (∀ s, flt s = None) →
  (_ ← upsert flt folder file content;
   stmt flt StTxInsertRevision
     (λ d, Ok (tt, insert_revision id revision created_on d))) d
  = Ok (tt, insert_revision id revision created_on
              (upserted folder file content d)).
Proof.
  intros Hflt. unfold mbind at 1. unfold tx_bind at 1.
  rewrite upsert_succeeds by done. unfold stmt. by rewrite Hflt.
Qed.

Lemma delete_body_succeeds flt id revision created_on d :
  (∀ s, flt s = None) →
  (_ ← stmt flt StTxWrite (λ d, Ok (tt, update_content id tombstone d));
   stmt flt StTxInsertRevision
     (λ d, Ok (tt, insert_revision (Some id) revision created_on d))) d
  = Ok (tt, insert_revision (Some id) revision created_on
              (update_content id tombstone d)).
Proof. intros Hflt. unfold mbind, tx_bind, stmt. by rewrite !Hflt. Qed.

Lemma revisions_upserted folder file content d :
  ghost_revisions (upserted folder file content d) = ghost_revisions d ∧
  next_revision_id (upserted folder file content d) = next_revision_id d.
Proof. unfold upserted. by destruct (head (select_content folder file d)). Qed.

(** ** Lemmas on [LIKE] *)

Lemma ascii_eq_nat a b : a = b ↔ nat_of_ascii a = nat_of_ascii b.
Proof.
  split; [by intros ->|]. intros H.
  rewrite <- (ascii_nat_embedding a), <- (ascii_nat_embedding b).
  by rewrite H.
Qed.

(** Two characters have the same lower case if and only if they are one
    character or the two cases of one ASCII letter. *)
Lemma ascii_lower_same_letter a b :
  Ascii.eqb (JsString.ascii_lower a) (JsString.ascii_lower b) = true ↔
  same_letter a b.
Proof.
  rewrite Ascii.eqb_eq, ascii_eq_nat. unfold same_letter, JsString.ascii_lower.
  rewrite (ascii_eq_nat a b).
  pose proof (nat_ascii_bounded a) as Ha.
  pose proof (nat_ascii_bounded b) as Hb.
  destruct (Nat.leb_spec 65 (nat_of_ascii a)),
           (Nat.leb_spec (nat_of_ascii a) 90),
           (Nat.leb_spec 65 (nat_of_ascii b)),
           (Nat.leb_spec (nat_of_ascii b) 90); cbn [andb];
    rewrite ?nat_ascii_embedding by lia;
    (split;
     [intros Heq;
      destruct (decide (nat_of_ascii a = nat_of_ascii b)); [by left|right];
      exists (Nat.min (nat_of_ascii a) (nat_of_ascii b)); lia
     |intros [?|(n & ? & ?)]; lia]).
Qed.

Lemma like_literal pat s :
  no_wildcard pat = true → JsString.like pat s = true ↔ same_word pat s.
Proof.
  revert s. induction pat as [|p pat IH]; intros s Hpat.
  - simpl. by destruct s.
  - simpl in Hpat. apply andb_true_iff in Hpat as [Hp Hpat].
    apply andb_true_iff in Hp as [Hp37 Hp95].
    apply negb_true_iff in Hp37, Hp95. simpl. rewrite Hp37.
    destruct s as [|c s]; [done|]. rewrite Hp95. simpl.
    by rewrite andb_true_iff, IH, ascii_lower_same_letter.
Qed.

Lemma like_percent pat s :
  JsString.like (String "%" pat) s = true ↔
  ∃ pre suf, s = pre ++ suf ∧ JsString.like pat suf = true.
Proof.
  induction s as [|c s IH].
  - simpl. rewrite orb_false_r. split.
    + intros H. by exists "", "".
    + intros (pre & suf & Heq & H). by destruct pre, suf.
  - change (JsString.like (String "%" pat) (String c s))
      with (JsString.like pat (String c s) || JsString.like (String "%" pat) s).
    rewrite orb_true_iff, IH. split.
    + intros [H|(pre & suf & -> & H)].
      * by exists "", (String c s).
      * by exists (String c pre), suf.
    + intros (pre & suf & Heq & H). destruct pre as [|c' pre].
      * left. change ("" ++ suf) with suf in Heq. by subst.
      * right. change (String c' pre ++ suf) with (String c' (pre ++ suf)) in Heq.
        injection Heq as -> ->. by exists pre, suf.
Qed.

Lemma like_ending pat s :
  no_wildcard pat = true →
  JsString.like ("%" ++ pat) s = true ↔
  ∃ pre suf, s = pre ++ suf ∧ same_word pat suf.
Proof.
  intros Hpat. change ("%" ++ pat) with (String "%" pat).
  rewrite like_percent. split.
  - intros (pre & suf & -> & Hsuf). exists pre, suf.
    split; [done|]. by apply like_literal.
  - intros (pre & suf & -> & Hsuf). exists pre, suf.
    split; [done|]. by apply like_literal.
Qed.

Lemma NoDup_files_of_folder (P : content_row → Prop)
    `{!∀ c, Decision (P c)} folder d :
  NoDup (keys d) → (∀ c, P c → c_folder c = folder) →
  NoDup (c_file <$> filter P (ghost_content d)).
Proof.
  intros Hnd HP.
  apply (NoDup_fmap_coarser (λ c, (c_folder c, c_file c))).
  - by apply NoDup_fmap_filter.
  - intros x y [Hx _]%list_elem_of_filter [Hy _]%list_elem_of_filter Hfile.
    by rewrite (HP x Hx), (HP y Hy), Hfile.
Qed.

(** ** More lemmas on the resynchronisation *)

Lemma filter_all {A} (P : A → Prop) `{!∀ x, Decision (P x)} (l : list A) :
  (∀ x, x ∈ l → P x) → filter P l = l.
Proof.
  induction l as [|x l IH]; intros HP; [done|].
  rewrite filter_cons, decide_True by (apply HP; left).
  f_equal. apply IH. intros y Hy. apply HP. by right.
Qed.

(** What holds of the database before [recordFiles] and is kept by every
    upsert holds after it, whichever files could be read. *)
Lemma recordFiles_ind (P : database → Prop) path_join fs folderPath folder
    files d :
  (∀ d file content, P d → P (upserted folder file content d)) →
  P d → P (recordFiles path_join fs folderPath folder files d).2.
Proof.
  intros Hstep. unfold recordFiles. generalize (@None error).
  revert d. induction files as [|f files IH]; intros d err Hd; [done|].
  simpl. unfold recordFile at 2.
  destruct (readFileAsync fs (path_join folderPath f)) as [content|code].
  - rewrite upsert_no_fault. by apply IH, Hstep.
  - by apply IH.
Qed.

(** The failure [recordFiles] reports is the failed read of a matched
    file, and it reports one as soon as a matched file cannot be read. *)
Lemma recordFiles_error path_join fs folderPath folder files d :
  match (recordFiles path_join fs folderPath folder files d).1 with
  | None => ∀ f, f ∈ files →
                 ∃ c, readFileAsync fs (path_join folderPath f) = ReadOk c
  | Some e => ∃ f code, f ∈ files ∧
                readFileAsync fs (path_join folderPath f) = ReadErr code ∧
                e = FsError code
  end.
Proof.
  unfold recordFiles.
  assert (Hgen : ∀ (files' : list string) err d,
    match err with
    | None => True
    | Some e => ∃ f code, f ∈ (files' ++ files)%list ∧
                  readFileAsync fs (path_join folderPath f) = ReadErr code ∧
                  e = FsError code
    end →
    (err = None → ∀ f, f ∈ files' →
       ∃ c, readFileAsync fs (path_join folderPath f) = ReadOk c) →
    match (foldl (λ acc file,
             match recordFile path_join fs folderPath folder file acc.2 with
             | Ok d' => (acc.1, d')
             | Err e => (Some (default e acc.1), acc.2)
             end) (err, d) files).1 with
    | None => ∀ f, f ∈ (files' ++ files)%list →
                   ∃ c, readFileAsync fs (path_join folderPath f) = ReadOk c
    | Some e => ∃ f code, f ∈ (files' ++ files)%list ∧
                  readFileAsync fs (path_join folderPath f) = ReadErr code ∧
                  e = FsError code
    end).
  { clear d. induction files as [|f files IH]; intros files' err d Herr Hok.
    - simpl. rewrite app_nil_r in *. destruct err; [done|]. by apply Hok.
    - simpl. unfold recordFile at 2.
      replace (files' ++ f :: files)%list with ((files' ++ [f]) ++ files)%list in *
        by (by rewrite <- app_assoc).
      destruct (readFileAsync fs (path_join folderPath f)) as [content|code] eqn:Hf.
      + rewrite upsert_no_fault. simpl. apply IH; [done|].
        intros -> g [Hg| ->%list_elem_of_singleton]%elem_of_app;
          [by apply Hok|by eexists].
      + simpl. apply IH; [|by destruct err].
        destruct err as [e|]; [done|]. simpl. exists f, code.
        split_and!; try done. apply elem_of_app. left. apply elem_of_app.
        right. left. }
  apply (Hgen [] None d); [done|]. by intros _ f ?%elem_of_nil.
Qed.

Lemma keys_upserted_subseteq folder file content d k :
  k ∈ keys d → k ∈ keys (upserted folder file content d).
Proof.
  intros Hk. rewrite keys_upserted. case_decide; [done|].
  apply elem_of_app. by left.
Qed.

(** An upsert in one folder leaves the rows of the other folders alone. *)
Lemma other_folders_upserted folder file content d :
  wf_content d →
  filter (λ c, c_folder c ≠ folder) (ghost_content (upserted folder file content d))
  = filter (λ c, c_folder c ≠ folder) (ghost_content d).
Proof.
  intros [Hnd _]. unfold upserted.
  destruct (head (select_content folder file d)) as [row|] eqn:Hrow.
  - apply head_select_Some in Hrow as (Hin & Hf & Hfile).
    unfold update_content. simpl.
    rewrite filter_fmap_commute by (intros c; by case_decide).
    rewrite <- (list_fmap_id (filter _ (ghost_content d))) at 2.
    apply list_fmap_ext. intros i c Hc%list_elem_of_lookup_2. simpl.
    apply list_elem_of_filter in Hc as [Hcf Hc].
    case_decide as Hid; [|done]. exfalso. apply Hcf.
    by rewrite (NoDup_fmap_elem_eq c_id (ghost_content d) c row Hnd Hc Hin Hid).
  - unfold insert_content. simpl. rewrite filter_app, filter_cons. simpl.
    rewrite decide_False by (by intros ?).
    by rewrite filter_nil, app_nil_r.
Qed.

Lemma other_folders_delete_content_not_in files folder d :
  filter (λ c, c_folder c ≠ folder)
         (ghost_content (delete_content_not_in files folder d))
  = filter (λ c, c_folder c ≠ folder) (ghost_content d).
Proof.
  unfold delete_content_not_in. simpl. rewrite list_filter_filter.
  apply list_filter_iff. intros c. split; [by intros [? _]|].
  intros Hf. split; [done|]. by intros [_ ?].
Qed.

(** An upsert of the content a file already has changes nothing. *)
Lemma upserted_same folder file content d :
  wf_content d → stored_content folder file d = Some content →
  upserted folder file content d = d.
Proof.
  intros [Hnd _] Hstored. unfold upserted, stored_content in *.
  destruct (head (select_content folder file d)) as [row|] eqn:Hrow; [|done].
  simpl in Hstored. apply head_select_Some in Hrow as (Hin & _ & _).
  unfold update_content. destruct d as [content_rows revs nc nr]. simpl in *.
  f_equal. rewrite <- (list_fmap_id content_rows) at 2.
  apply list_fmap_ext. intros i c Hc%list_elem_of_lookup_2. simpl.
  case_decide as Hid; [|done].
  rewrite (NoDup_fmap_elem_eq c_id content_rows c row Hnd Hc Hin Hid).
  destruct row. simpl in *. by rewrite Hstored.
Qed.

Lemma recorded_same path_join fs folderPath folder files d :
  wf_content d →
  (∀ f, f ∈ files →
        stored_content folder f d
        = Some (file_content path_join fs folderPath f)) →
  recorded path_join fs folderPath folder files d = d.
Proof.
  intros Hwf. induction files as [|f files IH]; intros Hsame; [done|].
  rewrite recorded_cons, upserted_same; [|done|apply Hsame; left].
  apply IH. intros g Hg. apply Hsame. by right.
Qed.

Section Operations.

Variable normalizeFolder : string → string * string.
Variable path_join : string → string → string.

Lemma recordRevision_no_fault w rootFolder file newContent st :
  (∀ s, fault w s = None) →
  let folder := (normalizeFolder rootFolder).2 in
  stored_content folder file (db st) ≠ Some newContent →
  recordRevision normalizeFolder w rootFolder file newContent st
  = (Fulfilled tt,
     updatePendingForFolder folder
       (with_db (insert_revision
                   (c_id <$> head (select_content folder file (db st)))
                   (uuid_v4 w) (now w)
                   (upserted folder file newContent (db st))) st)).
Proof.
  intros Hw folder Hne. unfold recordRevision. rewrite Hw.
  rewrite decide_False by (intros Heq; apply Hne; symmetry; exact Heq).
  by apply run_transaction_no_fault with (u := tt);
    [apply record_body_succeeds|].
Qed.

Lemma deleteFile_no_fault w rootFolder file st row :
  (∀ s, fault w s = None) →
  let folder := (normalizeFolder rootFolder).2 in
  head (select_live folder file (db st)) = Some row →
  deleteFile normalizeFolder w rootFolder file st
  = (Fulfilled tt,
     updatePendingForFolder folder
       (with_db (insert_revision (Some (c_id row)) (uuid_v4 w) (now w)
                   (update_content (c_id row) tombstone (db st))) st)).
Proof.
  intros Hw folder Hrow. unfold deleteFile. rewrite Hw. fold folder.
  rewrite Hrow.
  by apply run_transaction_no_fault with (u := tt);
    [apply delete_body_succeeds|].
Qed.

Lemma at_settlement_run_transaction w name body st :
  at_settlement st (run_transaction w name body st)
  = (settle_transaction body st).2.
Proof.
  unfold at_settlement, run_transaction, settle_transaction, after_commit.
  destruct (body (db st)) as [[u d]|e]; [|done]. cbn [fst snd].
  by destruct (fault w StRefresh).
Qed.

(** X1. A revision of a file that has a row, when nothing fails. The call is
    fulfilled by the commit: by then one revision is appended that points
    to the row, and the pending revisions are still those of before the
    call. The refresh comes after: at the end of the chain the revision is
    in the pending revisions of the folder, and [getPendingWithContent]
    gives its token together with the file and its new content. *)
Theorem recordRevision_existing_file_pending w rootFolder file newContent st row :
  let folder := (normalizeFolder rootFolder).2 in
  let settled :=
    at_settlement st
      (recordRevision normalizeFolder w rootFolder file newContent st) in
  (∀ s, fault w s = None) →
  head (select_content folder file (db st)) = Some row →
  c_content row ≠ Some newContent →
  ∃ st',
    recordRevision normalizeFolder w rootFolder file newContent st
    = (Fulfilled tt, st') ∧
    ghost_revisions (db settled) =
      (ghost_revisions (db st) ++
         [mkRevision (next_revision_id (db st)) (Some (c_id row))
            (uuid_v4 w) (now w) "admin"])%list ∧
    getPending settled = getPending st ∧
    ghost_revisions (db st') =
      (ghost_revisions (db st) ++
         [mkRevision (next_revision_id (db st)) (Some (c_id row))
            (uuid_v4 w) (now w) "admin"])%list ∧
    ∃ l info,
      getPending st' !! folder = Some l ∧
      mkPending file (next_revision_id (db st)) (uuid_v4 w) (now w) "admin" ∈ l ∧
      getPendingWithContent st' !! folder = Some info ∧
      uuid_v4 w ∈ revisions info ∧
      mkFile file (Some newContent) (c_deleted row) ∈ files info.
Proof.
  intros folder settled Hw Hrow Hne. subst settled.
  assert (Hs : stored_content folder file (db st) ≠ Some newContent).
  { unfold stored_content. by rewrite Hrow. }
  rewrite (recordRevision_no_fault w rootFolder file newContent st Hw Hs).
  fold folder. eexists. split; [done|].
  unfold at_settlement. cbn [fst snd].
  rewrite Hrow. cbn [db with_db updatePendingForFolder with_pending].
  set (d := upserted folder file newContent (db st)).
  destruct (revisions_upserted folder file newContent (db st)) as [Hrevs Hnext].
  fold d in Hrevs, Hnext.
  pose proof (head_select_Some _ _ _ _ Hrow) as (Hin & Hf & Hfile).
  assert (Hc : set_content (Some newContent) row ∈ ghost_content d).
  { unfold d, upserted. rewrite Hrow. unfold update_content. simpl.
    apply list_elem_of_fmap. exists row. by rewrite decide_True. }
  assert (Hp : mkPending file (next_revision_id (db st)) (uuid_v4 w) (now w) "admin"
               ∈ getPendingRevisions folder
                   (insert_revision (Some (c_id row)) (uuid_v4 w) (now w) d)).
  { apply elem_of_getPendingRevisions, elem_of_joined.
    exists (mkRevision (next_revision_id d) (Some (c_id row)) (uuid_v4 w) (now w)
              "admin"), (set_content (Some newContent) row).
    simpl. split_and!; try done.
    - apply elem_of_app. right. left.
    - by rewrite Hnext, Hfile. }
  split; [simpl; by rewrite Hrevs, Hnext|].
  split; [done|].
  split; [simpl; by rewrite Hrevs, Hnext|].
  eexists _, _. split_and!.
  - unfold getPending. simpl. by rewrite lookup_insert_eq.
  - exact Hp.
  - rewrite getPendingWithContent_lookup. simpl. by rewrite lookup_insert_eq.
  - simpl. apply list_elem_of_fmap.
    by exists (mkPending file (next_revision_id (db st)) (uuid_v4 w) (now w) "admin").
  - apply elem_of_files. exists (set_content (Some newContent) row).
    simpl. rewrite Hfile. split_and!; try done.
    apply list_elem_of_fmap.
    by exists (mkPending file (next_revision_id (db st)) (uuid_v4 w) (now w) "admin").
Qed.

(** X2. A deletion, when nothing fails. The call is fulfilled by the commit:
    by then one revision is appended that points to the deleted row, which
    is a tombstone, and the pending revisions are still those of before the
    call. The refresh comes after: at the end of the chain the revision is
    in the pending revisions of the folder, and [getPendingWithContent]
    gives its token together with the file as a tombstone, null content and
    [deleted] true. *)
Theorem deleteFile_records_tombstone w rootFolder file st row :
  let folder := (normalizeFolder rootFolder).2 in
  let settled :=
    at_settlement st (deleteFile normalizeFolder w rootFolder file st) in
  (∀ s, fault w s = None) →
  head (select_live folder file (db st)) = Some row →
  ∃ st',
    deleteFile normalizeFolder w rootFolder file st = (Fulfilled tt, st') ∧
    ghost_revisions (db settled) =
      (ghost_revisions (db st) ++
         [mkRevision (next_revision_id (db st)) (Some (c_id row))
            (uuid_v4 w) (now w) "admin"])%list ∧
    tombstone row ∈ ghost_content (db settled) ∧
    getPending settled = getPending st ∧
    ghost_revisions (db st') =
      (ghost_revisions (db st) ++
         [mkRevision (next_revision_id (db st)) (Some (c_id row))
            (uuid_v4 w) (now w) "admin"])%list ∧
    ∃ l info,
      getPending st' !! folder = Some l ∧
      mkPending file (next_revision_id (db st)) (uuid_v4 w) (now w) "admin" ∈ l ∧
      getPendingWithContent st' !! folder = Some info ∧
      uuid_v4 w ∈ revisions info ∧
      mkFile file None true ∈ files info.
Proof.
  intros folder settled Hw Hrow. subst settled.
  rewrite (deleteFile_no_fault w rootFolder file st row Hw Hrow).
  fold folder. eexists. split; [done|].
  unfold at_settlement. cbn [fst snd].
  cbn [db with_db updatePendingForFolder with_pending].
  set (d := update_content (c_id row) tombstone (db st)).
  pose proof (head_elem_of _ _ Hrow) as Hin.
  apply list_elem_of_filter in Hin as [(Hf & Hfile & _) Hin].
  assert (Hc : tombstone row ∈ ghost_content d).
  { unfold d, update_content. simpl.
    apply list_elem_of_fmap. exists row. by rewrite decide_True. }
  assert (Hp : mkPending file (next_revision_id (db st)) (uuid_v4 w) (now w) "admin"
               ∈ getPendingRevisions folder
                   (insert_revision (Some (c_id row)) (uuid_v4 w) (now w) d)).
  { apply elem_of_getPendingRevisions, elem_of_joined.
    exists (mkRevision (next_revision_id d) (Some (c_id row)) (uuid_v4 w) (now w)
              "admin"), (tombstone row).
    simpl. rewrite Hfile. split_and!; try done.
    apply elem_of_app. right. left. }
  split; [done|]. split; [done|]. split; [done|]. split; [done|].
  eexists _, _. split_and!.
  - unfold getPending. simpl. by rewrite lookup_insert_eq.
  - exact Hp.
  - rewrite getPendingWithContent_lookup. simpl. by rewrite lookup_insert_eq.
  - simpl. apply list_elem_of_fmap.
    by exists (mkPending file (next_revision_id (db st)) (uuid_v4 w) (now w) "admin").
  - apply elem_of_files. exists (tombstone row).
    simpl. rewrite Hfile. split_and!; try done.
    apply list_elem_of_fmap.
    by exists (mkPending file (next_revision_id (db st)) (uuid_v4 w) (now w) "admin").
Qed.

Lemma db_recordRevision w rootFolder file newContent st :
  db (recordRevision normalizeFolder w rootFolder file newContent st).2 = db st ∨
  db (recordRevision normalizeFolder w rootFolder file newContent st).2
  = insert_revision
      (c_id <$> head (select_content (normalizeFolder rootFolder).2 file (db st)))
      (uuid_v4 w) (now w)
      (upserted (normalizeFolder rootFolder).2 file newContent (db st)).
Proof.
  unfold recordRevision.
  destruct (fault w StSelect); [by left|]. case_decide; [by left|].
  rewrite db_run_transaction.
  match goal with
  | |- context [match ?b with Ok _ => _ | Err _ => _ end] =>
      destruct b as [[u d]|] eqn:Hbody; [|by left]
  end.
  right. by apply record_body_Ok in Hbody.
Qed.

Lemma db_deleteFile w rootFolder file st :
  db (deleteFile normalizeFolder w rootFolder file st).2 = db st ∨
  ∃ row, head (select_live (normalizeFolder rootFolder).2 file (db st)) = Some row ∧
         db (deleteFile normalizeFolder w rootFolder file st).2
         = insert_revision (Some (c_id row)) (uuid_v4 w) (now w)
             (update_content (c_id row) tombstone (db st)).
Proof.
  unfold deleteFile.
  destruct (fault w StSelect); [by left|].
  destruct (head (select_live _ file (db st))) as [row|] eqn:Hrow;
    [|by left].
  rewrite db_run_transaction.
  match goal with
  | |- context [match ?b with Ok _ => _ | Err _ => _ end] =>
      destruct b as [[u d]|] eqn:Hbody; [|by left]
  end.
  right. exists row. split; [done|]. by apply delete_body_Ok in Hbody.
Qed.

Lemma pending_recordRevision w rootFolder file newContent st g :
  g ≠ (normalizeFolder rootFolder).2 →
  pendingRevisionsByFolder
    (recordRevision normalizeFolder w rootFolder file newContent st).2 !! g
  = pendingRevisionsByFolder st !! g.
Proof.
  intros Hg. unfold recordRevision.
  destruct (fault w StSelect); [done|]. case_decide; [done|].
  by apply pending_run_transaction.
Qed.

Lemma pending_deleteFile w rootFolder file st g :
  g ≠ (normalizeFolder rootFolder).2 →
  pendingRevisionsByFolder
    (deleteFile normalizeFolder w rootFolder file st).2 !! g
  = pendingRevisionsByFolder st !! g.
Proof.
  intros Hg. unfold deleteFile.
  destruct (fault w StSelect); [done|].
  destruct (head (select_live _ file (db st))); [|done].
  by apply pending_run_transaction.
Qed.

(** X3. Whatever happens to them, [recordRevision] and [deleteFile] leave the
    rows of every other file, in this folder or another, as they were, and
    the pending revisions kept for every other folder too. *)
Theorem mutations_leave_the_rest w rootFolder file newContent st :
  let folder := (normalizeFolder rootFolder).2 in
  let recorded := (recordRevision normalizeFolder w rootFolder file newContent st).2 in
  let deleted := (deleteFile normalizeFolder w rootFolder file st).2 in
  wf_content (db st) →
  (∀ folder' file', (folder', file') ≠ (folder, file) →
     select_content folder' file' (db recorded)
     = select_content folder' file' (db st) ∧
     select_content folder' file' (db deleted)
     = select_content folder' file' (db st)) ∧
  (∀ g, g ≠ folder →
     getPending recorded !! g = getPending st !! g ∧
     getPending deleted !! g = getPending st !! g).
Proof.
  intros folder recorded deleted Hwf. subst folder recorded deleted. split.
  - intros folder' file' Hne. split.
    + destruct (db_recordRevision w rootFolder file newContent st) as [->| ->];
        [done|].
      rewrite select_content_insert_revision.
      apply select_upserted_other_key; [done|]. by intros [= <- <-].
    + destruct (db_deleteFile w rootFolder file st)
        as [->|(row & Hrow & ->)]; [done|].
      rewrite select_content_insert_revision.
      apply head_elem_of in Hrow.
      apply list_elem_of_filter in Hrow as [(Hf & Hfile & _) Hrow].
      apply select_content_update_other; try done; [apply Hwf|].
      rewrite Hf, Hfile. by intros [= <- <-].
  - intros g Hg. split.
    + by apply pending_recordRevision.
    + by apply pending_deleteFile.
Qed.

Lemma deleteFile_no_live_row w rootFolder file st st' :
  unique_keys (db st) →
  deleteFile normalizeFolder w rootFolder file st = (Fulfilled tt, st') →
  select_live (normalizeFolder rootFolder).2 file (db st') = [] ∧
  ∃ row, head (select_content (normalizeFolder rootFolder).2 file (db st'))
         = Some (tombstone row).
Proof.
  intros Huniq (row & Hrow & ->)%deleteFile_Fulfilled. split.
  - by apply select_live_tombstoned.
  - pose proof (head_elem_of _ _ Hrow) as Hin.
    apply select_live_subseteq in Hin.
    pose proof Hin as [[Hf Hfile] Hin']%list_elem_of_filter.
    change (select_content ?f ?g (insert_revision _ _ _ ?d))
      with (select_content f g d).
    rewrite select_content_update by done.
    destruct (select_content _ file (db st)) as [|row0 rows] eqn:Hsel;
      [by apply elem_of_nil in Hin|].
    assert (Hrow0 : row0 ∈ select_content (normalizeFolder rootFolder).2 file (db st))
      by (rewrite Hsel; left).
    apply list_elem_of_filter in Hrow0 as [[Hf0 Hfile0] Hrow0].
    assert (row0 = row) as -> by (apply Huniq; congruence).
    exists row. simpl. by rewrite decide_True.
Qed.

Lemma not_listed rootFolder file fileEndingPattern st :
  select_live (normalizeFolder rootFolder).2 file (db st) = [] →
  file ∉ directoryListing normalizeFolder rootFolder fileEndingPattern st.
Proof.
  intros Hlive (c & -> & [[[Hf Hl] _] Hc]%list_elem_of_filter)%list_elem_of_fmap.
  assert (Hin : c ∈ select_live (normalizeFolder rootFolder).2 (c_file c) (db st))
    by (by apply list_elem_of_filter).
  rewrite Hlive in Hin. by apply elem_of_nil in Hin.
Qed.

(** X4. A second [deleteFile] of a deleted file is rejected with the "can't
    delete file" error and changes nothing. *)
Theorem deleteFile_twice w1 w2 rootFolder file st st1 :
  unique_keys (db st) →
  deleteFile normalizeFolder w1 rootFolder file st = (Fulfilled tt, st1) →
  fault w2 StSelect = None →
  deleteFile normalizeFolder w2 rootFolder file st1
  = (Rejected (CantDeleteFile file (normalizeFolder rootFolder).2), st1).
Proof.
  intros Huniq [Hlive _]%deleteFile_no_live_row Hw; [|done].
  unfold deleteFile. by rewrite Hw, Hlive.
Qed.

(** X5. [readFile] of a deleted file is fulfilled, with null: the tombstone is
    still a row, and [readFile] reads it. *)
Theorem deleteFile_then_readFile w rootFolder file st st' :
  unique_keys (db st) →
  deleteFile normalizeFolder w rootFolder file st = (Fulfilled tt, st') →
  readFile normalizeFolder rootFolder file st' = Fulfilled None.
Proof.
  intros Huniq [_ (row & Hrow)]%deleteFile_no_live_row; [|done].
  unfold readFile. by rewrite Hrow.
Qed.

(** X6. [recordRevision] never brings a deleted file back: after a deletion, a
    fulfilled [recordRevision] of the same file stores the new content, and
    [readFile] returns it, but the row keeps [deleted] true and no
    [directoryListing] shows the file. *)
Theorem recordRevision_keeps_tombstone w1 w2 rootFolder file newContent
    fileEndingPattern st st1 st2 :
  unique_keys (db st) →
  deleteFile normalizeFolder w1 rootFolder file st = (Fulfilled tt, st1) →
  recordRevision normalizeFolder w2 rootFolder file newContent st1
  = (Fulfilled tt, st2) →
  readFile normalizeFolder rootFolder file st2 = Fulfilled (Some newContent) ∧
  (file ∉ directoryListing normalizeFolder rootFolder fileEndingPattern st2) ∧
  ∃ row, head (select_content (normalizeFolder rootFolder).2 file (db st2))
         = Some row ∧ c_deleted row = true.
Proof.
  intros Huniq [Hlive (row & Hrow)]%deleteFile_no_live_row Hrec; [|done].
  assert (Hlive2 : select_live (normalizeFolder rootFolder).2 file (db st2) = []).
  { pose proof (db_recordRevision w2 rootFolder file newContent st1) as Hdb.
    rewrite Hrec in Hdb. simpl in Hdb.
    destruct Hdb as [->| ->]; [done|].
    change (select_live ?f ?g (insert_revision _ _ _ ?d))
      with (select_live f g d).
    apply select_live_upserted; [|done].
    intros Hnil. by rewrite Hnil in Hrow. }
  pose proof (recordRevision_stores normalizeFolder _ _ _ _ _ _ Hrec) as Hstored.
  unfold stored_content in Hstored.
  split_and!.
  - unfold readFile.
    destruct (head (select_content (normalizeFolder rootFolder).2 file (db st2))) as [r|]; [|done].
    simpl in Hstored. by rewrite Hstored.
  - by apply not_listed.
  - destruct (head (select_content (normalizeFolder rootFolder).2 file (db st2))) as [r|] eqn:Hr;
      [|done].
    exists r. split; [done|].
    destruct (c_deleted r) eqn:Hd; [done|]. exfalso.
    apply head_select_Some in Hr as (Hin & Hf & Hfile).
    assert (Hlv : r ∈ select_live (normalizeFolder rootFolder).2 file (db st2))
      by (by apply list_elem_of_filter).
    rewrite Hlive2 in Hlv. by apply elem_of_nil in Hlv.
Qed.

(** X7. When only the select that refreshes the pending revisions fails, after
    the commit: the call is fulfilled and the revision is in
    [ghost_revisions], but the pending revisions in memory are those from
    before the call, and the failure is only logged. *)
Theorem refresh_failure_leaves_pending_stale w rootFolder file newContent st e :
  let folder := (normalizeFolder rootFolder).2 in
  (∀ s, s ≠ StRefresh → fault w s = None) →
  fault w StRefresh = Some e →
  stored_content folder file (db st) ≠ Some newContent →
  ∃ st',
    recordRevision normalizeFolder w rootFolder file newContent st
    = (Fulfilled tt, st') ∧
    ghost_revisions (db st') =
      (ghost_revisions (db st) ++
         [mkRevision (next_revision_id (db st))
            (c_id <$> head (select_content folder file (db st)))
            (uuid_v4 w) (now w) "admin"])%list ∧
    stored_content folder file (db st') = Some newContent ∧
    getPending st' = getPending st ∧
    logged st' = (logged st ++ [ErrorLogged e])%list.
Proof.
  intros folder Hw He Hne.
  assert (Hbody :
    (_ ← upsert (fault w) folder file newContent;
     stmt (fault w) StTxInsertRevision
       (λ d, Ok (tt, insert_revision
                       (c_id <$> head (select_content folder file (db st)))
                       (uuid_v4 w) (now w) d))) (db st)
    = Ok (tt, insert_revision
                (c_id <$> head (select_content folder file (db st)))
                (uuid_v4 w) (now w) (upserted folder file newContent (db st)))).
  { unfold mbind at 1. unfold tx_bind at 1.
    rewrite upsert_succeeds by (by apply Hw). unfold stmt.
    by rewrite Hw. }
  eexists. split.
  { unfold recordRevision. rewrite Hw by done. fold folder.
    rewrite decide_False by (intros Heq; apply Hne; symmetry; exact Heq).
    unfold run_transaction, settle_transaction, after_commit. rewrite Hbody, He. done. }
  destruct (revisions_upserted folder file newContent (db st)) as [Hrevs Hnext].
  cbn [db with_db log]. split_and!; try done.
  - simpl. by rewrite Hrevs, Hnext.
  - destruct (head_select_upserted folder file newContent (db st))
      as (r & Hr & Hc).
    unfold stored_content.
    change (select_content ?f ?g (insert_revision _ _ _ ?d))
      with (select_content f g d).
    by rewrite Hr.
Qed.

(** X8. With an ending pattern free of [%] and [_], [directoryListing] lists the
    files of the live rows of the folder whose name ends with the pattern,
    the case of ASCII letters left aside, and no other; with unique keys it
    lists no file twice. *)
Theorem directoryListing_ending rootFolder fileEndingPattern st f :
  no_wildcard fileEndingPattern = true →
  (f ∈ directoryListing normalizeFolder rootFolder fileEndingPattern st ↔
   (∃ c, c ∈ ghost_content (db st) ∧
         c_folder c = (normalizeFolder rootFolder).2 ∧
         c_deleted c = false ∧ c_file c = f) ∧
   ∃ pre suf, f = pre ++ suf ∧ same_word fileEndingPattern suf) ∧
  (NoDup (keys (db st)) →
   NoDup (directoryListing normalizeFolder rootFolder fileEndingPattern st)).
Proof.
  intros Hpat. split.
  - unfold directoryListing. rewrite list_elem_of_fmap. split.
    + intros (c & -> & [[[Hf Hl] Hlike] Hc]%list_elem_of_filter).
      split; [by exists c|]. by apply like_ending.
    + intros [(c & Hc & Hf & Hl & <-) Hend]. exists c. split; [done|].
      apply list_elem_of_filter. split; [|done].
      split; [done|]. by apply like_ending.
  - intros Hnd. unfold directoryListing.
    apply (NoDup_files_of_folder _ (normalizeFolder rootFolder).2); [done|].
    by intros c [[Hf _] _].
Qed.

(** X9. Every file [directoryListing] lists can be read: [readFile] is
    fulfilled, and with unique keys it returns the content of the live row
    of the file. *)
Theorem listed_file_readable rootFolder fileEndingPattern st f :
  f ∈ directoryListing normalizeFolder rootFolder fileEndingPattern st →
  (∃ v, readFile normalizeFolder rootFolder f st = Fulfilled v) ∧
  (unique_keys (db st) →
   ∃ c, c ∈ ghost_content (db st) ∧
        c_folder c = (normalizeFolder rootFolder).2 ∧ c_file c = f ∧
        c_deleted c = false ∧
        readFile normalizeFolder rootFolder f st = Fulfilled (c_content c)).
Proof.
  intros (c & -> & [[[Hf Hl] _] Hc]%list_elem_of_filter)%list_elem_of_fmap.
  assert (Hsel : c ∈ select_content (normalizeFolder rootFolder).2 (c_file c) (db st))
    by (by apply list_elem_of_filter).
  unfold readFile.
  destruct (head (select_content _ (c_file c) (db st))) as [row|] eqn:Hrow.
  - split; [by eexists|]. intros Huniq.
    apply head_select_Some in Hrow as (Hin & Hrf & Hrfile).
    assert (row = c) as -> by (apply Huniq; congruence).
    by exists c.
  - apply head_filter_None in Hrow. unfold select_content in Hsel.
    rewrite Hrow in Hsel. by apply elem_of_nil in Hsel.
Qed.

(** X10. The first [recordRevision] of a file creates a live row: from then on
    [directoryListing] lists the file, under every ending pattern its name
    matches, the empty one included. *)
Theorem recordRevision_new_file_listed w rootFolder file newContent st st' :
  select_content (normalizeFolder rootFolder).2 file (db st) = [] →
  recordRevision normalizeFolder w rootFolder file newContent st
  = (Fulfilled tt, st') →
  file ∈ directoryListing normalizeFolder rootFolder "" st' ∧
  ∀ fileEndingPattern,
    JsString.like ("%" ++ fileEndingPattern) file = true →
    file ∈ directoryListing normalizeFolder rootFolder fileEndingPattern st'.
Proof.
  intros Hnone Hcall.
  assert (Hall : ∀ fileEndingPattern,
    JsString.like ("%" ++ fileEndingPattern) file = true →
    file ∈ directoryListing normalizeFolder rootFolder fileEndingPattern st').
  { intros pat Hlike.
    apply recordRevision_Fulfilled in Hcall as [[Hs _]|[_ Hdb]].
    { unfold stored_content in Hs. by rewrite Hnone in Hs. }
    unfold directoryListing. rewrite Hdb. simpl. unfold upserted.
    rewrite Hnone. simpl. apply list_elem_of_fmap.
    exists (mkContent (next_content_id (db st)) (normalizeFolder rootFolder).2
              file (Some newContent) false).
    split; [done|]. apply list_elem_of_filter. split; [done|].
    apply elem_of_app. right. left. }
  split; [|done]. apply Hall. apply like_any.
Qed.

(** X11. [getPendingWithContent] has an entry for exactly the folders of
    [getPending]. For each, the revisions are the tokens of the pending
    rows, in their order, one per row; the files are the rows
    [ghost_content] holds now, in that folder, for the files the pending
    rows name, a file coming once when keys are unique. *)
Theorem getPendingWithContent_of_pending st g :
  match getPending st !! g with
  | None => getPendingWithContent st !! g = None
  | Some l =>
      ∃ info,
        getPendingWithContent st !! g = Some info ∧
        revisions info = p_revision <$> l ∧
        (∀ fr, fr ∈ files info ↔
           ∃ c p, c ∈ ghost_content (db st) ∧ c_folder c = g ∧
                  p ∈ l ∧ p_file p = c_file c ∧
                  fr = mkFile (c_file c) (c_content c) (c_deleted c)) ∧
        (NoDup (keys (db st)) → NoDup (f_file <$> files info))
  end.
Proof.
  unfold getPending. rewrite getPendingWithContent_lookup.
  destruct (pendingRevisionsByFolder st !! g) as [l|]; [|done].
  eexists. split; [done|]. split_and!.
  - done.
  - intros fr. rewrite elem_of_files. split.
    + intros (c & Hc & Hf & (p & Hp & Hin)%list_elem_of_fmap & ->).
      by exists c, p.
    + intros (c & p & Hc & Hf & Hp & Hfile & ->). exists c.
      split_and!; try done. apply list_elem_of_fmap. by exists p.
  - intros Hnd. unfold getPendingWithContentForFolder. simpl.
    rewrite <- list_fmap_compose.
    apply (NoDup_files_of_folder _ g); [done|]. by intros c [_ Hf].
Qed.

Lemma revisions_reconcile fs filesGlob folderPath folder known st :
  ghost_revisions (db (reconcile path_join fs filesGlob folderPath folder known st).2)
  = filter (λ r, r_id r ∉ p_id <$> filter (λ p, is_known known (p_revision p))
                                    (getPendingRevisions folder (db st)))
           (ghost_revisions (db st)).
Proof.
  unfold reconcile.
  set (dbRevisions := getPendingRevisions folder (db st)).
  set (toDelete := filter (λ p, is_known known (p_revision p)) dbRevisions).
  set (st1 := match toDelete with [] => st | _ :: _ => _ end).
  assert (H1 : ghost_revisions (db st1)
               = filter (λ r, r_id r ∉ p_id <$> toDelete) (ghost_revisions (db st))).
  { unfold st1. destruct toDelete; [|done]. symmetry. apply filter_all.
    intros r _. apply not_elem_of_nil. }
  destruct (filter (λ p, ¬ is_known known (p_revision p)) dbRevisions);
    [|done].
  cbn [db log].
  pose proof (recordFiles_ind (λ d, ghost_revisions d = ghost_revisions (db st1))
                path_join fs folderPath folder
                (globAsync fs filesGlob folderPath) (db st1)) as Hrec.
  destruct (recordFiles _ _ _ _ _ _) as [[e|] d]; simpl in *;
    rewrite Hrec; try done;
    intros d0 f c <-; apply revisions_upserted.
Qed.

(** The tokens [uuid.v4()] gives naming no inherited property, no token in
    [ghost_revisions] ever does: this holds of the empty database and is
    kept by the three operations that write, however they end. *)
Lemma tokens_generated_kept w fs rootFolder filesGlob file newContent st :
  uuid_v4 w ∉ Object_prototype_names →
  tokens_generated (db st) →
  tokens_generated (db empty_state) ∧
  tokens_generated
    (db (recordRevision normalizeFolder w rootFolder file newContent st).2) ∧
  tokens_generated (db (deleteFile normalizeFolder w rootFolder file st).2) ∧
  tokens_generated
    (db (addRootFolder normalizeFolder path_join fs rootFolder filesGlob st).2).
Proof.
  intros Hw Hgen.
  assert (Hins : ∀ id d, ghost_revisions d = ghost_revisions (db st) →
            tokens_generated (insert_revision id (uuid_v4 w) (now w) d)).
  { intros id d Hd r. simpl. rewrite Hd, elem_of_app, list_elem_of_singleton.
    intros [Hr| ->]; [by apply Hgen|done]. }
  split_and!.
  - intros r Hr. by apply elem_of_nil in Hr.
  - destruct (db_recordRevision w rootFolder file newContent st) as [->| ->];
      [done|]. apply Hins. apply revisions_upserted.
  - destruct (db_deleteFile w rootFolder file st) as [->|(row & _ & ->)];
      [done|]. by apply Hins.
  - unfold addRootFolder.
    destruct (readKnownRevisions path_join fs _) as [known|]; [|done].
    intros r. rewrite revisions_reconcile. cbn [db track log].
    intros [_ Hr]%list_elem_of_filter. by apply Hgen.
Qed.

(** X12. The statements registration sends to the database being carried
    out, what it deletes from [ghost_revisions] is exactly the revisions of
    a row of the folder whose token is known, that is, a key the revisions
    file gave or a name every object inherits: a revision of another
    folder, or one whose row is gone, stays even when its token is known. *)
Theorem addRootFolder_deletes_released fs rootFolder filesGlob st known r :
  let folderPath := (normalizeFolder rootFolder).1 in
  let folder := (normalizeFolder rootFolder).2 in
  readKnownRevisions path_join fs folderPath = Ok known →
  NoDup (r_id <$> ghost_revisions (db st)) →
  r ∈ ghost_revisions
        (db (addRootFolder normalizeFolder path_join fs rootFolder filesGlob st).2) ↔
  r ∈ ghost_revisions (db st) ∧
  ¬ (is_known known (r_revision r) ∧
     ∃ c, c ∈ ghost_content (db st) ∧ r_content_id r = Some (c_id c) ∧
          c_folder c = folder).
Proof.
  intros folderPath folder Hknown Hnd. unfold addRootFolder.
  fold folderPath folder. rewrite Hknown, revisions_reconcile.
  cbn [db track log]. rewrite list_elem_of_filter.
  split; intros [Hr1 Hr2].
  - split; [done|].
    intros [Hk (c & Hc & Hid & Hf)]. apply Hr1.
    apply list_elem_of_fmap.
    exists (mkPending (c_file c) (r_id r) (r_revision r) (r_created_on r)
              (r_created_by r)).
    split; [done|]. apply list_elem_of_filter. split; [done|].
    apply elem_of_getPendingRevisions, elem_of_joined. by exists r, c.
  - split; [|done].
    intros (p & Hid & [Hk Hp]%list_elem_of_filter)%list_elem_of_fmap.
    apply elem_of_getPendingRevisions, elem_of_joined in Hp
      as (r' & c & Hr' & Hc & Hcid & Hf & ->).
    simpl in *.
    assert (r = r') as <- by (by apply (NoDup_fmap_elem_eq r_id _ r r' Hnd)).
    apply Hr2. split; [done|]. by exists c.
Qed.

(** X13. Registering a folder leaves the rows of every other folder as they
    were, however it ends. *)
Theorem addRootFolder_other_folders fs rootFolder filesGlob st :
  wf_content (db st) →
  filter (λ c, c_folder c ≠ (normalizeFolder rootFolder).2)
    (ghost_content
       (db (addRootFolder normalizeFolder path_join fs rootFolder filesGlob st).2))
  = filter (λ c, c_folder c ≠ (normalizeFolder rootFolder).2)
      (ghost_content (db st)).
Proof.
  intros Hwf. unfold addRootFolder.
  destruct (readKnownRevisions path_join fs _) as [known|]; [|done].
  unfold reconcile. cbn [db track log].
  set (folder := (normalizeFolder rootFolder).2).
  set (folderPath := (normalizeFolder rootFolder).1).
  set (st0 := track folder (log (DebugAdding folder) st)).
  set (dbRevisions := getPendingRevisions folder (db st)).
  set (toDelete := filter (λ p, is_known known (p_revision p)) dbRevisions).
  set (st1 := match toDelete with [] => st0 | _ :: _ => _ end).
  assert (H1 : ghost_content (db st1) = ghost_content (db st) ∧
               next_content_id (db st1) = next_content_id (db st)).
  { unfold st1. by destruct toDelete. }
  destruct H1 as [Hc1 Hn1].
  assert (Hwf1 : wf_content (db st1)).
  { destruct Hwf as [Hnd Hlt]. split; rewrite Hc1; [done|]. by rewrite Hn1. }
  destruct (filter (λ p, ¬ is_known known (p_revision p)) dbRevisions);
    [|by rewrite <- Hc1].
  cbn [db log].
  pose proof (recordFiles_ind
                (λ d, wf_content d ∧
                      filter (λ c, c_folder c ≠ folder) (ghost_content d)
                      = filter (λ c, c_folder c ≠ folder) (ghost_content (db st)))
                path_join fs folderPath folder
                (globAsync fs filesGlob folderPath) (db st1)) as Hrec.
  destruct Hrec as [_ Hrec].
  { intros d f c [Hd <-]. split; [by apply wf_content_upserted|].
    by apply other_folders_upserted. }
  { split; [done|]. by rewrite Hc1. }
  destruct (recordFiles _ _ _ _ _ _) as [[e|] d];
    cbn [db with_db log fst snd] in *; [done|].
  by rewrite other_folders_delete_content_not_in.
Qed.

(** X14. When a matched file cannot be read, registration is rejected with the
    failure of such a read, and it deletes no row: every file that had a
    row still has one. *)
Theorem addRootFolder_unreadable_file fs rootFolder filesGlob st known f code :
  let folderPath := (normalizeFolder rootFolder).1 in
  let folder := (normalizeFolder rootFolder).2 in
  let registered :=
    addRootFolder normalizeFolder path_join fs rootFolder filesGlob st in
  readKnownRevisions path_join fs folderPath = Ok known →
  filter (λ p, p_revision p ∉ known) (getPendingRevisions folder (db st)) = [] →
  f ∈ globAsync fs filesGlob folderPath →
  readFileAsync fs (path_join folderPath f) = ReadErr code →
  (∃ f' code', f' ∈ globAsync fs filesGlob folderPath ∧
     readFileAsync fs (path_join folderPath f') = ReadErr code' ∧
     registered.1 = Rejected (FsError code')) ∧
  ∀ k, k ∈ keys (db st) → k ∈ keys (db registered.2).
Proof.
  intros folderPath folder registered Hknown Hnone Hf Hcode. subst registered.
  unfold addRootFolder. fold folderPath folder. rewrite Hknown.
  unfold reconcile. cbn [db track log].
  rewrite (filter_nil_weaken (λ p, p_revision p ∉ known)
             (λ p, ¬ is_known known (p_revision p)) _)
    by (done || (intros p Hp Hk; apply Hp; by left)).
  set (st0 := track folder (log (DebugAdding folder) st)).
  set (toDelete := filter (λ p, is_known known (p_revision p)) _).
  set (st1 := match toDelete with [] => st0 | _ :: _ => _ end).
  assert (Hc1 : ghost_content (db st1) = ghost_content (db st)).
  { unfold st1. by destruct toDelete. }
  cbn [db log].
  pose proof (recordFiles_error path_join fs folderPath folder
                (globAsync fs filesGlob folderPath) (db st1)) as Herr.
  pose proof (recordFiles_ind (λ d, ∀ k, k ∈ keys (db st) → k ∈ keys d)
                path_join fs folderPath folder
                (globAsync fs filesGlob folderPath) (db st1)) as Hkeys.
  destruct (recordFiles _ _ _ _ _ _) as [[e|] d]; simpl in *.
  - destruct Herr as (f' & code' & Hf' & Hcode' & ->). split.
    + by exists f', code'.
    + apply Hkeys.
      * intros d0 g c Hd0 k Hk. by apply keys_upserted_subseteq, Hd0.
      * unfold keys. by rewrite Hc1.
  - destruct (Herr f Hf) as [c Hc]. congruence.
Qed.

(** X15. Registering a folder whose rows already mirror the matched files, with
    no revision of the folder around, is fulfilled and leaves the database
    as it is: a second registration in a row is idle. *)
Theorem addRootFolder_in_sync fs rootFolder filesGlob st known :
  let folderPath := (normalizeFolder rootFolder).1 in
  let folder := (normalizeFolder rootFolder).2 in
  let matched := globAsync fs filesGlob folderPath in
  readKnownRevisions path_join fs folderPath = Ok known →
  getPendingRevisions folder (db st) = [] →
  wf_content (db st) →
  (∀ f, f ∈ matched →
        ∃ c, readFileAsync fs (path_join folderPath f) = ReadOk c ∧
             stored_content folder f (db st) = Some c) →
  (∀ c, c ∈ ghost_content (db st) → c_folder c = folder → c_file c ∈ matched) →
  ∃ st',
    addRootFolder normalizeFolder path_join fs rootFolder filesGlob st
    = (Fulfilled tt, st') ∧
    db st' = db st ∧ getPending st' = getPending st.
Proof.
  intros folderPath folder matched Hknown Hnone Hwf Hsame Hrows.
  unfold addRootFolder. fold folderPath folder. rewrite Hknown.
  unfold reconcile. cbn [db track log]. rewrite Hnone, !filter_nil.
  fold matched. cbn [db log].
  rewrite recordFiles_readable
    by (intros f Hf; destruct (Hsame f Hf) as (c & Hc & _); by exists c).
  rewrite recorded_same; [|done|].
  2:{ intros f Hf. destruct (Hsame f Hf) as (c & Hc & Hs).
      unfold file_content. by rewrite Hc. }
  eexists. split; [done|]. cbn [db with_db]. split; [|done].
  unfold delete_content_not_in. cbn [db track log].
  rewrite filter_all; [by destruct (db st)|].
  intros c Hc [Hnot Hf]. apply Hnot. by apply Hrows.
Qed.

End Operations.

(** ** The two names of a flow *)

Lemma not_dot_eqb c :
  (nat_of_ascii c =? 46)%nat = false →
  Ascii.eqb "." c = false ∧ Ascii.eqb "." (FlowProvider.ascii_lower c) = false.
Proof.
  destruct c as [[] [] [] [] [] [] [] []]; intros H; try done; by vm_compute.
Qed.

Example flow_names_apart :
  FlowProvider.uiFileName "main.flow.json" = "main.ui.json" ∧
  FlowProvider.uiPath "main.flow.json" = "main.ui.json" ∧
  FlowProvider.uiFileName "a.flow.flow.json" = "a.ui.ui.json" ∧
  FlowProvider.uiPath "a.flow.flow.json" = "a.flow.ui.json" ∧
  FlowProvider.uiFileName "Main.Flow.JSON" = "Main.Flow.JSON" ∧
  FlowProvider.uiPath "Main.Flow.JSON" = "Main.ui.json".
Proof. by vm_compute. Qed.

(** X17. For a flow file [x.flow.json] whose [x] has no dot, [loadAll] reads the
    ui file [_prepareSaveFlow] writes, [x.ui.json]. *)
Theorem flow_ui_names_agree base :
  FlowProvider.no_dot base = true →
  FlowProvider.uiFileName (base ++ ".flow.json") = base ++ ".ui.json" ∧
  FlowProvider.uiPath (base ++ ".flow.json") = base ++ ".ui.json".
Proof.
  induction base as [|c base IH]; intros Hbase; [by vm_compute|].
  simpl in Hbase. apply andb_true_iff in Hbase as [Hc Hbase].
  apply negb_true_iff, not_dot_eqb in Hc as [Hc Hci].
  destruct (IH Hbase) as [IHload IHsave].
  change (String c base ++ ?s) with (String c (base ++ s)). split.
  - unfold FlowProvider.uiFileName, FlowProvider.replace_all in *.
    cbn [FlowProvider.replace_all_from FlowProvider.starts_with].
    by rewrite Hc, IHload.
  - unfold FlowProvider.uiPath in *.
    cbn [FlowProvider.replace_first_ci FlowProvider.starts_with].
    by rewrite Hci, IHsave.
Qed.

(** ** More of the sample project *)

Lemma recordRevision_existing_file_pending_witness :
  ∃ st' l,
    recordRevision sample_normalizeFolder (mkWorld "uuid-1" 10 no_fault)
      "flows" "a.json" "v2" registered_state = (Fulfilled tt, st') ∧
    getPending
      (at_settlement registered_state
         (recordRevision sample_normalizeFolder (mkWorld "uuid-1" 10 no_fault)
            "flows" "a.json" "v2" registered_state)) !! "flows" = None ∧
    getPending st' !! "flows" = Some l ∧
    mkPending "a.json" 1 "uuid-1" 10 "admin" ∈ l.
Proof.
  destruct (recordRevision_existing_file_pending sample_normalizeFolder
              (mkWorld "uuid-1" 10 no_fault) "flows" "a.json" "v2"
              registered_state (mkContent 1 "flows" "a.json" (Some "A") false))
    as (st' & Hcall & _ & Hsettled & _ & l & info & Hl & Hp & _).
  - intros s. reflexivity.
  - vm_compute. reflexivity.
  - discriminate.
  - exists st', l. split; [exact Hcall|]. split; [|split; [exact Hl|exact Hp]].
    rewrite Hsettled. vm_compute. reflexivity.
Defined.

Lemma deleteFile_records_tombstone_witness :
  ∃ st' info,
    deleteFile sample_normalizeFolder (mkWorld "uuid-2" 11 no_fault)
      "flows" "b.json" revised_state = (Fulfilled tt, st') ∧
    getPending
      (at_settlement revised_state
         (deleteFile sample_normalizeFolder (mkWorld "uuid-2" 11 no_fault)
            "flows" "b.json" revised_state))
    = getPending revised_state ∧
    getPendingWithContent st' !! "flows" = Some info ∧
    "uuid-2" ∈ revisions info ∧ mkFile "b.json" None true ∈ files info.
Proof.
  destruct (deleteFile_records_tombstone sample_normalizeFolder
              (mkWorld "uuid-2" 11 no_fault) "flows" "b.json"
              revised_state (mkContent 2 "flows" "b.json" (Some "B") false))
    as (st' & Hcall & _ & _ & Hsettled & _ & l & info & _ & _ & Hinfo & Hrev
        & Hfile).
  - intros s. reflexivity.
  - vm_compute. reflexivity.
  - exists st', info. split; [exact Hcall|]. split; [exact Hsettled|].
    split; [exact Hinfo|]. split; [exact Hrev|exact Hfile].
Defined.

Lemma wf_content_two_folder_state : wf_content (db two_folder_state).
Proof.
  apply wf_content_Forall; apply (bool_decide_unpack _); vm_compute; exact I.
Qed.

Lemma mutations_leave_the_rest_witness :
  select_content "skills" "s.json"
    (db (deleteFile sample_normalizeFolder (mkWorld "uuid-8" 17 no_fault)
           "flows" "a.json" two_folder_state).2)
  = select_content "skills" "s.json" (db two_folder_state) ∧
  select_content "flows" "b.json"
    (db (recordRevision sample_normalizeFolder (mkWorld "uuid-8" 17 no_fault)
           "flows" "a.json" "v3" two_folder_state).2)
  = select_content "flows" "b.json" (db two_folder_state).
Proof.
  destruct (mutations_leave_the_rest sample_normalizeFolder
              (mkWorld "uuid-8" 17 no_fault) "flows" "a.json" "v3"
              two_folder_state wf_content_two_folder_state) as [Hrows _].
  split.
  - apply (Hrows "skills" "s.json"). discriminate.
  - apply (Hrows "flows" "b.json"). discriminate.
Defined.

Lemma unique_keys_revised_state : unique_keys (db revised_state).
Proof.
  apply unique_keys_NoDup. apply (bool_decide_unpack _). vm_compute. exact I.
Qed.

Lemma deleteFile_revised_state :
  deleteFile sample_normalizeFolder (mkWorld "uuid-2" 11 no_fault)
    "flows" "b.json" revised_state = (Fulfilled tt, deleted_state).
Proof. vm_compute. reflexivity. Qed.

Lemma deleteFile_twice_witness :
  deleteFile sample_normalizeFolder (mkWorld "uuid-5" 14 no_fault)
    "flows" "b.json" deleted_state
  = (Rejected (CantDeleteFile "b.json" "flows"), deleted_state).
Proof.
  apply (deleteFile_twice sample_normalizeFolder
           (mkWorld "uuid-2" 11 no_fault) (mkWorld "uuid-5" 14 no_fault)
           "flows" "b.json" revised_state deleted_state
           unique_keys_revised_state deleteFile_revised_state).
  reflexivity.
Defined.

Lemma deleteFile_then_readFile_witness :
  readFile sample_normalizeFolder "flows" "b.json" deleted_state = Fulfilled None.
Proof.
  exact (deleteFile_then_readFile sample_normalizeFolder
           (mkWorld "uuid-2" 11 no_fault) "flows" "b.json"
           revised_state deleted_state
           unique_keys_revised_state deleteFile_revised_state).
Defined.

Lemma recordRevision_keeps_tombstone_witness :
  ∃ st2,
    recordRevision sample_normalizeFolder (mkWorld "uuid-9" 18 no_fault)
      "flows" "b.json" "B2" deleted_state = (Fulfilled tt, st2) ∧
    readFile sample_normalizeFolder "flows" "b.json" st2 = Fulfilled (Some "B2") ∧
    "b.json" ∉ directoryListing sample_normalizeFolder "flows" ".json" st2.
Proof.
  eexists. split; [vm_compute; reflexivity|].
  destruct (recordRevision_keeps_tombstone sample_normalizeFolder
              (mkWorld "uuid-2" 11 no_fault) (mkWorld "uuid-9" 18 no_fault)
              "flows" "b.json" "B2" ".json" revised_state deleted_state _
              unique_keys_revised_state deleteFile_revised_state eq_refl)
    as (Hread & Hlist & _).
  split; [exact Hread|exact Hlist].
Defined.

Lemma refresh_failure_leaves_pending_stale_witness :
  ∃ st',
    recordRevision sample_normalizeFolder failing_refresh
      "flows" "a.json" "v2" registered_state = (Fulfilled tt, st') ∧
    stored_content "flows" "a.json" (db st') = Some "v2" ∧
    getPending st' = getPending registered_state.
Proof.
  destruct (refresh_failure_leaves_pending_stale sample_normalizeFolder
              failing_refresh "flows" "a.json" "v2" registered_state
              (DbError "SQLITE_BUSY"))
    as (st' & Hcall & _ & Hstored & Hpending & _).
  - intros s Hs. destruct s; try reflexivity. by destruct Hs.
  - reflexivity.
  - vm_compute. discriminate.
  - exists st'. split; [exact Hcall|]. split; [exact Hstored|exact Hpending].
Defined.

Lemma directoryListing_ending_witness :
  "a.json" ∈ directoryListing sample_normalizeFolder "flows" ".JSON" deleted_state ∧
  NoDup (directoryListing sample_normalizeFolder "flows" ".JSON" deleted_state).
Proof.
  destruct (directoryListing_ending sample_normalizeFolder "flows" ".JSON"
              deleted_state "a.json" eq_refl) as [Hin Hnd].
  split.
  - apply Hin. split.
    + exists (mkContent 1 "flows" "a.json" (Some "v2") false).
      split; [vm_compute; left|]. by split_and!.
    + exists "a", ".json". split; [reflexivity|].
      apply (proj1 (like_literal ".JSON" ".json" eq_refl)). reflexivity.
  - apply Hnd. apply (bool_decide_unpack _). vm_compute. exact I.
Defined.

Lemma listed_file_readable_witness :
  ∃ v, readFile sample_normalizeFolder "flows" "a.json" deleted_state
       = Fulfilled v.
Proof.
  apply (listed_file_readable sample_normalizeFolder "flows" "" deleted_state
           "a.json").
  vm_compute. left.
Defined.

Lemma recordRevision_new_file_listed_witness :
  "s.json" ∈ directoryListing sample_normalizeFolder "skills" "" two_folder_state.
Proof.
  refine (proj1 (recordRevision_new_file_listed sample_normalizeFolder
                   (mkWorld "uuid-7" 16 no_fault) "skills" "s.json" "S"
                   registered_state two_folder_state _ _)).
  - reflexivity.
  - vm_compute. reflexivity.
Defined.

Lemma getPendingWithContent_of_pending_witness :
  ∃ info,
    getPendingWithContent deleted_state !! "flows" = Some info ∧
    revisions info = ["uuid-2"; "uuid-1"] ∧
    NoDup (f_file <$> files info).
Proof.
  pose proof (getPendingWithContent_of_pending deleted_state "flows") as H.
  change (getPending deleted_state !! "flows")
    with (Some [mkPending "b.json" 2 "uuid-2" 11 "admin";
                mkPending "a.json" 1 "uuid-1" 10 "admin"]) in H.
  destruct H as (info & Hinfo & Hrevs & _ & Hnd).
  exists info. split; [exact Hinfo|]. split; [exact Hrevs|].
  apply Hnd. apply (bool_decide_unpack _). vm_compute. exact I.
Defined.

Lemma addRootFolder_deletes_released_witness :
  let registered :=
    (addRootFolder sample_normalizeFolder sample_path_join released_fs
       "flows" "**/*.json" deleted_state).2 in
  (mkRevision 1 (Some 1%positive) "uuid-1" 10 "admin"
     ∉ ghost_revisions (db registered)) ∧
  mkRevision 2 (Some 2%positive) "uuid-2" 11 "admin"
    ∈ ghost_revisions (db registered).
Proof.
  assert (Hknown : readKnownRevisions sample_path_join released_fs
                     (sample_normalizeFolder "flows").1 = Ok {["uuid-1"]})
    by (vm_compute; reflexivity).
  assert (Hnd : NoDup (r_id <$> ghost_revisions (db deleted_state)))
    by (apply (bool_decide_unpack _); vm_compute; exact I).
  split.
  - intros Hin.
    apply (addRootFolder_deletes_released sample_normalizeFolder
             sample_path_join released_fs "flows" "**/*.json" deleted_state
             {["uuid-1"]} _ Hknown Hnd) in Hin as [_ Hnot].
    apply Hnot. split; [left; by apply elem_of_singleton|].
    exists (mkContent 1 "flows" "a.json" (Some "v2") false).
    split; [vm_compute; left|]. by split.
  - apply (addRootFolder_deletes_released sample_normalizeFolder
             sample_path_join released_fs "flows" "**/*.json" deleted_state
             {["uuid-1"]} _ Hknown Hnd).
    split; [vm_compute; right; left|].
    intros [[Hk%elem_of_singleton|Hk] _]; [discriminate|].
    assert (Hn : "uuid-2" ∉ Object_prototype_names)
      by (apply (bool_decide_unpack _); vm_compute; exact I).
    exact (Hn Hk).
Defined.

Lemma addRootFolder_other_folders_witness :
  filter (λ c, c_folder c ≠ "flows")
    (ghost_content
       (db (addRootFolder sample_normalizeFolder sample_path_join sample_fs
              "flows" "**/*.json" two_folder_state).2))
  = [mkContent 3 "skills" "s.json" (Some "S") false].
Proof.
  etrans;
    [exact (addRootFolder_other_folders sample_normalizeFolder
              sample_path_join sample_fs "flows" "**/*.json" two_folder_state
              wf_content_two_folder_state)|].
  vm_compute. reflexivity.
Defined.

Lemma addRootFolder_unreadable_file_witness :
  ∃ f code,
    readFileAsync broken_fs (sample_path_join "/bot/flows" f) = ReadErr code ∧
    (addRootFolder sample_normalizeFolder sample_path_join broken_fs
       "flows" "**/*.json" registered_state).1 = Rejected (FsError code).
Proof.
  destruct (addRootFolder_unreadable_file sample_normalizeFolder
              sample_path_join broken_fs "flows" "**/*.json" registered_state
              ∅ "dir.json" "EISDIR")
    as [(f' & code' & _ & Hread & Hout) _].
  - vm_compute. reflexivity.
  - reflexivity.
  - vm_compute. right. left.
  - reflexivity.
  - exists f', code'. split; [exact Hread|exact Hout].
Defined.

Lemma addRootFolder_in_sync_witness :
  ∃ st',
    addRootFolder sample_normalizeFolder sample_path_join sample_fs
      "flows" "**/*.json" registered_state = (Fulfilled tt, st') ∧
    db st' = db registered_state.
Proof.
  destruct (addRootFolder_in_sync sample_normalizeFolder sample_path_join
              sample_fs "flows" "**/*.json" registered_state ∅)
    as (st' & Hcall & Hdb & _).
  - vm_compute. reflexivity.
  - reflexivity.
  - apply wf_content_Forall; apply (bool_decide_unpack _); vm_compute; exact I.
  - intros f Hf. vm_compute in Hf.
    apply elem_of_cons in Hf as [->|Hf]; [by exists "A"|].
    apply elem_of_cons in Hf as [->|Hf]; [by exists "B"|].
    by apply elem_of_nil in Hf.
  - apply (proj1 (Forall_forall
                    (λ c, c_folder c = "flows" →
                          c_file c ∈ ["a.json"; "b.json"])
                    (ghost_content (db registered_state)))).
    vm_compute.
    apply Forall_cons; split; [intros _; left|].
    apply Forall_cons; split; [intros _; right; left|]. constructor.
  - exists st'. split; [exact Hcall|exact Hdb].
Defined.

Lemma operations_keep_invariant_witness :
  wf_database (db deleted_state) ∧
  wf_database
    (db (addRootFolder sample_normalizeFolder sample_path_join released_fs
           "flows" "**/*.json" deleted_state).2).
Proof.
  assert (Hwf : wf_database (db deleted_state)).
  { split_and!; [apply wf_content_Forall|split|];
      try (apply (bool_decide_unpack _); vm_compute; exact I).
    apply (proj1 (Forall_forall
                    (λ r, (r_id r < next_revision_id (db deleted_state))%positive)
                    (ghost_revisions (db deleted_state)))).
    apply (bool_decide_unpack _). vm_compute. exact I. }
  split; [exact Hwf|].
  exact (proj2 (proj2 (operations_keep_invariant sample_normalizeFolder
                         sample_path_join (mkWorld "uuid-5" 14 no_fault)
                         released_fs "flows" "**/*.json" "a.json" "v3"
                         deleted_state Hwf))).
Defined.

Lemma flow_ui_names_agree_witness :
  FlowProvider.uiFileName "main.flow.json" = FlowProvider.uiPath "main.flow.json".
Proof.
  destruct (flow_ui_names_agree "main" eq_refl) as [Hload Hsave].
  etrans; [exact Hload|]. symmetry. exact Hsave.
Defined.
